(** * practice-mcp-servers: the two example MCP servers

    A shallow embedding of [simple_mcp_server.py] and
    [advanced_mcp_server.py], and the properties of their request
    handlers.

    The protocol layer (the [mcp] SDK) only routes a request to one of the
    decorated handlers; what is modelled here is the handlers themselves:
    [handle_read_resource] and [handle_call_tool] of each server.

    - Python [str] is a sequence of Unicode code points: [str := list N].
      Literals are written in UTF-8 and decoded by [u].
    - [arguments: dict] is a [gmap string str].  Every key a handler reads
      (action, filename, content, title, search_query, command, location,
      url, method, expression, text) is declared ["type": "string"] by the
      input schemas of [handle_list_tools]; the integer and object
      properties (note_id, task_id, headers, data) are read by no handler.
    - A handler runs in the monad [M]: it may read and change the on-disk
      store (workspace directory and SQLite database), consult the
      outside world ([Env]: clock, [df], HTTP, [eval]), append to a log of
      outbound events, and either return or raise. *)

From Stdlib Require Import ZArith NArith List Lia Ascii String DecimalString.
From Stdlib Require Import Sorted Permutation.
From stdpp Require Import base decidable option list gmap strings.

Open Scope Z_scope.

(* ===================================================================== *)
(** ** Python strings *)
(* ===================================================================== *)

Module Py.

Definition char := N.
Definition str := list char.

(** Decoding of a UTF-8 byte sequence into code points; used for the
    literals of the source only. *)
Fixpoint utf8_decode (bs : list N) : str :=
  match bs with
  | [] => []
  | b :: r =>
      if (b <? 128)%N then b :: utf8_decode r
      else if (b <? 224)%N then
        match r with
        | c1 :: r1 => ((b mod 32) * 64 + c1 mod 64)%N :: utf8_decode r1
        | _ => []
        end
      else if (b <? 240)%N then
        match r with
        | c1 :: c2 :: r2 =>
            ((b mod 16) * 4096 + (c1 mod 64) * 64 + c2 mod 64)%N :: utf8_decode r2
        | _ => []
        end
      else
        match r with
        | c1 :: c2 :: c3 :: r3 =>
            ((b mod 8) * 262144 + (c1 mod 64) * 4096 + (c2 mod 64) * 64 + c3 mod 64)%N
              :: utf8_decode r3
        | _ => []
        end
  end.

Definition bytes_of (s : string) : list N :=
  map Ascii.N_of_ascii (String.list_ascii_of_string s).

(** [u "..."] is the Python literal ["..."]. *)
Definition u (s : string) : str := utf8_decode (bytes_of s).

(** [str(n)] / [f"{n}"] for an [int]. *)
Definition str_of_Z (z : Z) : str :=
  bytes_of (NilEmpty.string_of_int (Z.to_int z)).

Definition str_of_nat (n : nat) : str := str_of_Z (Z.of_nat n).

(** [a == b] *)
Definition eqb {A} `{EqDecision A} (a b : A) : bool := bool_decide (a = b).

Definition LF : char := 10%N.
Definition TAB : char := 9%N.
Definition SPACE : char := 32%N.

(** [c.isspace()]: the code points [str.split()] treats as separators
    (CPython's [_PyUnicode_IsWhitespace]). *)
Definition isspace (c : char) : bool :=
  ((9 <=? c) && (c <=? 13) || (28 <=? c) && (c <=? 32)
   || (c =? 133) || (c =? 160) || (c =? 5760)
   || (8192 <=? c) && (c <=? 8202)
   || (c =? 8232) || (c =? 8233) || (c =? 8239) || (c =? 8287)
   || (c =? 12288))%N.

(** [text.split()]: skip separators, collect a maximal run of other
    characters, repeat.  [cur] is the run being collected, last character
    first. *)
Fixpoint split_ws_from (cur : str) (t : str) : list str :=
  match t with
  | [] => match cur with [] => [] | _ => [rev cur] end
  | c :: r =>
      if isspace c then
        match cur with
        | [] => split_ws_from [] r
        | _ => rev cur :: split_ws_from [] r
        end
      else split_ws_from (c :: cur) r
  end.

Definition split_ws (t : str) : list str := split_ws_from [] t.

(** [text.split(sep)] for a one-character separator: every occurrence of
    [sep] ends a piece, empty pieces included. *)
Fixpoint split_on_from (sep : char) (cur : str) (t : str) : list str :=
  match t with
  | [] => [rev cur]
  | c :: r =>
      if (c =? sep)%N then rev cur :: split_on_from sep [] r
      else split_on_from sep (c :: cur) r
  end.

Definition split_on (sep : char) (t : str) : list str := split_on_from sep [] t.

(** [text.replace(old, new)] for a one-character [old]. *)
Definition replace1 (old : char) (new : str) (t : str) : str :=
  flat_map (fun c => if (c =? old)%N then new else [c]) t.

(** [text[::-1]]: the characters at indices [n-1, n-2, ..., 0]. *)
Definition slice_reversed (t : str) : str :=
  map (fun k => nth (length t - 1 - k)%nat t 0%N) (seq 0 (length t)).

(** [text[:k]] *)
Definition slice_to (k : nat) (t : str) : str := firstn k t.

End Py.

Import Py.

(* ===================================================================== *)
(** ** Values shared by both servers *)
(* ===================================================================== *)

(** Exceptions carry their class and [str(e)].  [except Exception] catches
    the classes derived from [Exception]; [SystemExit] and
    [KeyboardInterrupt] derive from [BaseException] only. *)
Inductive exc_class :=
  | ValueError | TypeError | SyntaxError | ZeroDivisionError | OSError
  | RequestException | SystemExit | KeyboardInterrupt.

Definition is_Exception (c : exc_class) : bool :=
  match c with
  | SystemExit | KeyboardInterrupt => false
  | _ => true
  end.

Record exc := Exc { exc_type : exc_class; exc_str : str }.

Inductive Res (A : Type) :=
  | Return (a : A)
  | Raise (e : exc).
Arguments Return {A} a.
Arguments Raise {A} e.

(** [types.TextContent(type="text", text=...)] *)
Inductive content := TextContent (text : str).

(** [Resource(uri=AnyUrl(...), name=..., description=..., mimeType=...)] *)
Record Resource := {
  r_uri : str;
  r_name : str;
  r_description : str;
  r_mimeType : str
}.

(** The argument of [json.dumps]. *)
Unset Elimination Schemes.
Inductive json :=
  | JNull
  | JInt (z : Z)
  | JStr (s : str)
  | JList (l : list json)
  | JDict (fields : list (string * json)).
Set Elimination Schemes.

Definition json_opt (o : option str) : json :=
  match o with Some s => JStr s | None => JNull end.

(** Library functions the handlers call; fixed for the life of the
    process. *)
Record Runtime := {
  json_dumps : json -> str;       (* json.dumps(x, indent=2, ensure_ascii=False) *)
  isoformat : Z -> str;           (* datetime.fromtimestamp(t).isoformat() *)
  strftime : Z -> str;            (* datetime....strftime("%Y-%m-%d %H:%M:%S") *)
  current_timestamp : Z -> str;   (* SQLite CURRENT_TIMESTAMP at clock t *)
  sql_like : str -> str -> bool   (* SQLite [text LIKE pattern]: pattern, text *)
}.

(** The outside world as one call finds it. *)
Record Env := {
  (** the system clock *)
  env_now : Z;
  (** [subprocess.run(['df', '-h'], ...).stdout] *)
  env_df : Res str;
  (** [requests.get(url, timeout=t)]: status code and [response.text] *)
  env_http_get : option str -> Z -> Res (Z * str);
  (** [eval(expression, {"__builtins__": B}, L)] for the names of [B] and
      [L], with its value as the f-string renders it *)
  env_eval : str -> list string -> list string -> Res str
}.

(** Outbound effects of a call. *)
Inductive event :=
  | HttpGet (url : option str) (timeout : Z)
  | RunProcess (argv : list str).

(* ===================================================================== *)
(** ** The on-disk store *)
(* ===================================================================== *)

(** Rows of the two tables created by [init_database]; the nullable
    columns are options. *)
Record note := {
  n_id : Z;
  n_title : str;
  n_content : str;
  n_created_at : option str;
  n_updated_at : option str
}.

Record task := {
  t_id : Z;
  t_title : str;
  t_description : option str;
  t_status : option str;
  t_created_at : option str;
  t_due_date : option str
}.

(** The database file [notes.db].  [init_database] runs when the module
    is imported and creates both tables, so every handler finds them;
    [sqlite3.connect] then opens the existing file.  [notes_seq] and
    [tasks_seq] are the AUTOINCREMENT counters SQLite keeps for the
    tables. *)
Record database := {
  notes : list note;
  notes_seq : Z;
  tasks : list task;
  tasks_seq : Z
}.

(** One entry of the workspace directory, with the [stat] fields the
    listings read. *)
Record dirent := {
  d_name : str;       (* file_path.name *)
  d_relpath : str;    (* str(file_path.relative_to(WORK_DIR)) *)
  d_is_file : bool;   (* file_path.is_file() *)
  d_size : Z;         (* file_path.stat().st_size *)
  d_mtime : Z         (* file_path.stat().st_mtime *)
}.

(** The file system under [WORK_DIR], through the [pathlib] operations
    the handlers use.  [filename] is joined to [WORK_DIR] as given. *)
Class FileSystem (FS : Type) := {
  fs_iterdir : FS -> list dirent;                     (* WORK_DIR.iterdir() *)
  fs_rglob : FS -> list dirent;                       (* WORK_DIR.rglob("*") *)
  fs_exists : FS -> str -> bool;                      (* (WORK_DIR / f).exists() *)
  fs_read_text : FS -> str -> Res str;                (* .read_text(encoding='utf-8') *)
  (** [.write_text(content, encoding='utf-8')]: whether it raises, and the
      directory it leaves when the clock reads [t] *)
  fs_write_text : FS -> str -> str -> Res unit * (Z -> FS);
  fs_unlink : FS -> str -> Res unit * FS              (* .unlink() *)
}.

Record World (FS : Type) := {
  w_fs : FS;
  w_db : database;
  w_log : list event
}.
Arguments w_fs {FS} _.
Arguments w_db {FS} _.
Arguments w_log {FS} _.

(* ===================================================================== *)
(** ** The handler monad *)
(* ===================================================================== *)

Definition M (FS A : Type) : Type := World FS -> Res A * World FS.

Section Monad.
Context {FS : Type}.

Definition ret {A} (a : A) : M FS A := fun w => (Return a, w).

Definition raise {A} (e : exc) : M FS A := fun w => (Raise e, w).

Definition bind {A B} (m : M FS A) (k : A -> M FS B) : M FS B :=
  fun w =>
    match m w with
    | (Return a, w') => k a w'
    | (Raise e, w') => (Raise e, w')
    end.

(** The outcome of a library call that may raise. *)
Definition lift {A} (r : Res A) : M FS A := fun w => (r, w).

(** [try: m  except Exception as e: h e] *)
Definition try_except {A} (m : M FS A) (h : exc -> M FS A) : M FS A :=
  fun w =>
    match m w with
    | (Return a, w') => (Return a, w')
    | (Raise e, w') =>
        if is_Exception (exc_type e) then h e w' else (Raise e, w')
    end.

Definition get_fs : M FS FS := fun w => (Return (w_fs w), w).

Definition get_db : M FS database := fun w => (Return (w_db w), w).

Definition put_db (d : database) : M FS unit :=
  fun w => (Return tt, {| w_fs := w_fs w; w_db := d; w_log := w_log w |}).

Definition emit (ev : event) : M FS unit :=
  fun w => (Return tt, {| w_fs := w_fs w; w_db := w_db w; w_log := w_log w ++ [ev] |}).

(** A file-system operation that may change the directory. *)
Definition fs_do {A} (op : FS -> Res A * FS) : M FS A :=
  fun w =>
    let '(r, fs') := op (w_fs w) in
    (r, {| w_fs := fs'; w_db := w_db w; w_log := w_log w |}).

End Monad.

Notation "'let*' x ':=' m 'in' k" := (bind m (fun x => k))
  (at level 10, x name, m at level 100, k at level 200).
Notation "m ';;' k" := (bind m (fun _ => k))
  (at level 100, k at level 200, right associativity).

Notation "a == b" := (Py.eqb a b) (at level 70, no associativity).

(* ===================================================================== *)
(** ** simple_mcp_server.py *)
(* ===================================================================== *)

Module Simple.
Section Handlers.
Context {FS : Type} (env : Env).

Definition handle_read_resource (uri : str) : M FS str :=
  if uri == u "sample://greeting" then
    ret (u "Hello from MCP Server! This is a sample resource.")
  else
    raise (Exc ValueError (u "Unknown resource: " ++ uri)).

Definition allowed_names : list string :=
  ["abs"; "round"; "min"; "max"; "pow"; "sum"; "len"]%string.

Definition handle_call_tool (name : str) (arguments : gmap string str)
  : M FS (list content) :=
  if name == u "calculator" then
    try_except
      (let expression := default (u "") (arguments !! "expression"%string) in
       let* result := lift (env_eval env expression [] allowed_names) in
       ret [TextContent (u "計算結果: " ++ expression ++ u " = " ++ result)])
      (fun e => ret [TextContent (u "計算エラー: " ++ exc_str e)])
  else if name == u "text_analyzer" then
    let text := default (u "") (arguments !! "text"%string) in
    let char_count := length text in
    let word_count := length (split_ws text) in
    let line_count := length (split_on LF text) in
    let analysis :=
      u "テキスト分析結果:" ++ [LF]
      ++ u "文字数: " ++ str_of_nat char_count ++ [LF]
      ++ u "単語数: " ++ str_of_nat word_count ++ [LF]
      ++ u "行数: " ++ str_of_nat line_count ++ [LF]
      ++ u "空白を除く文字数: "
      ++ str_of_nat
           (length (replace1 TAB (u "") (replace1 LF (u "") (replace1 SPACE (u "") text))))
      ++ [LF] in
    ret [TextContent analysis]
  else if name == u "reverse_text" then
    let text := default (u "") (arguments !! "text"%string) in
    let reversed_text := slice_reversed text in
    ret [TextContent (u "元のテキスト: " ++ text ++ [LF] ++ u "逆順テキスト: " ++ reversed_text)]
  else
    raise (Exc ValueError (u "Unknown tool: " ++ name)).

End Handlers.

Definition handle_list_resources : list Resource :=
  [ {| r_uri := u "sample://greeting";
       r_name := u "Sample Greeting";
       r_description := u "A sample greeting resource";
       r_mimeType := u "text/plain" |} ].

(** [Tool(name=..., description=..., inputSchema=...)]: the schema is an
    object whose properties all have type string. *)
Record Tool := {
  tool_name : str;
  tool_description : str;
  tool_properties : list (string * str);   (* property and its description *)
  tool_required : list string
}.

Definition handle_list_tools : list Tool :=
  [ {| tool_name := u "calculator";
       tool_description := u "Perform basic mathematical calculations";
       tool_properties :=
         [ ("expression"%string,
            u "Mathematical expression to evaluate (e.g., '2 + 3 * 4')") ];
       tool_required := ["expression"%string] |};
    {| tool_name := u "text_analyzer";
       tool_description := u "Analyze text and return statistics";
       tool_properties := [ ("text"%string, u "Text to analyze") ];
       tool_required := ["text"%string] |};
    {| tool_name := u "reverse_text";
       tool_description := u "Reverse the order of characters in text";
       tool_properties := [ ("text"%string, u "Text to reverse") ];
       tool_required := ["text"%string] |} ].

End Simple.

(* ===================================================================== *)
(** ** advanced_mcp_server.py *)
(* ===================================================================== *)

Module Advanced.

(** What [handle_list_tools] advertises: each tool's name and the [enum]
    of its selector property (action, command or method). *)
Record tool := { tool_name : str; tool_selector : string; tool_enum : list str }.

Definition enum_of (name : str) (tools : list tool) : list (list str) :=
  map tool_enum (List.filter (fun t => tool_name t == name) tools).

Definition handle_list_tools : list tool :=
  [ {| tool_name := u "file_operations"; tool_selector := "action";
       tool_enum := [u "read"; u "write"; u "list"; u "delete"] |};
    {| tool_name := u "note_manager"; tool_selector := "action";
       tool_enum := [u "create"; u "read"; u "update"; u "delete"; u "search"] |};
    {| tool_name := u "task_manager"; tool_selector := "action";
       tool_enum := [u "create"; u "list"; u "update"; u "complete"; u "delete"] |};
    {| tool_name := u "system_info"; tool_selector := "command";
       tool_enum := [u "disk_usage"; u "memory_info"; u "cpu_info"; u "current_time"; u "weather"] |};
    {| tool_name := u "web_request"; tool_selector := "method";
       tool_enum := [u "GET"; u "POST"] |} ].

(** Comparison of two [TEXT] values, and of nullable ones (NULL sorts
    first). *)
Fixpoint str_ltb (a b : str) : bool :=
  match a, b with
  | _, [] => false
  | [], _ :: _ => true
  | x :: a', y :: b' =>
      if (x <? y)%N then true else if (y <? x)%N then false else str_ltb a' b'
  end.

Definition opt_ltb (a b : option str) : bool :=
  match a, b with
  | _, None => false
  | None, Some _ => true
  | Some x, Some y => str_ltb x y
  end.

(** [ORDER BY key DESC]; rows with equal keys keep their table order. *)
Fixpoint insert_desc {A} (key : A -> option str) (r : A) (l : list A) : list A :=
  match l with
  | [] => [r]
  | y :: l' =>
      if opt_ltb (key r) (key y) then y :: insert_desc key r l' else r :: l
  end.

Definition order_by_desc {A} (key : A -> option str) (rows : list A) : list A :=
  foldr (insert_desc key) [] rows.

(** [dict(zip(columns, row))] *)
Definition note_json (r : note) : json :=
  JDict [ ("id", JInt (n_id r)); ("title", JStr (n_title r));
          ("content", JStr (n_content r));
          ("created_at", json_opt (n_created_at r));
          ("updated_at", json_opt (n_updated_at r)) ]%string.

Definition task_json (r : task) : json :=
  JDict [ ("id", JInt (t_id r)); ("title", JStr (t_title r));
          ("description", json_opt (t_description r));
          ("status", json_opt (t_status r));
          ("created_at", json_opt (t_created_at r));
          ("due_date", json_opt (t_due_date r)) ]%string.

(** The rowid an AUTOINCREMENT table gives its next row. *)
Definition next_rowid (ids : list Z) (seq : Z) : Z :=
  Z.max (foldr Z.max 0 ids) seq + 1.

(** [file_path.is_file() and file_path.name != "notes.db"] *)
Definition listed (d : dirent) : bool :=
  d_is_file d && negb (d_name d == u "notes.db").

Section Handlers.
Context {FS : Type} `{FileSystem FS} (rt : Runtime) (env : Env).

(** The dictionary appended to [files] by the resource and by the tool. *)
Definition resource_file (file_path : dirent) : json :=
  JDict [ ("name", JStr (d_name file_path));
          ("path", JStr (d_relpath file_path));
          ("size", JInt (d_size file_path));
          ("modified", JStr (isoformat rt (d_mtime file_path))) ]%string.

Definition tool_file (file_path : dirent) : json :=
  JDict [ ("name", JStr (d_name file_path));
          ("size", JInt (d_size file_path));
          ("modified", JStr (strftime rt (d_mtime file_path))) ]%string.

Definition handle_read_resource (uri : str) : M FS str :=
  let uri_str := uri in
  if uri_str == u "mcp://workspace-files" then
    let* fs := get_fs in
    let files := map resource_file (List.filter listed (fs_rglob fs)) in
    ret (json_dumps rt (JList files))
  else if uri_str == u "mcp://notes" then
    let* db := get_db in
    let notes := map note_json (order_by_desc n_updated_at (notes db)) in
    ret (json_dumps rt (JList notes))
  else if uri_str == u "mcp://tasks" then
    let* db := get_db in
    let tasks := map task_json (order_by_desc t_created_at (tasks db)) in
    ret (json_dumps rt (JList tasks))
  else
    raise (Exc ValueError (u "Unknown resource: " ++ uri)).

(** [WORK_DIR / filename].  The path is named by [filename] itself, the
    file-system operations being relative to [WORK_DIR]; the division
    raises when the key is absent and [filename] is [None]. *)
Definition path_join (filename : option str) : M FS str :=
  match filename with
  | Some f => ret f
  | None =>
      raise (Exc TypeError (u "unsupported operand type(s) for /: 'PosixPath' and 'NoneType'"))
  end.

(** Each tool's branch returns [Some result] where the source executes a
    [return], and [None] where control leaves the [if] chain. *)
Definition file_operations (arguments : gmap string str)
  : M FS (option (list content)) :=
  let action := arguments !! "action"%string in
  let filename := arguments !! "filename"%string in
  if action == Some (u "list") then
    let* fs := get_fs in
    let files := map tool_file (List.filter listed (fs_iterdir fs)) in
    ret (Some [TextContent (u "ワークスペースファイル一覧:" ++ [LF]
                            ++ json_dumps rt (JList files))])
  else if action == Some (u "read") then
    let* file_path := path_join filename in
    let* fs := get_fs in
    if fs_exists fs file_path then
      let* content := lift (fs_read_text fs file_path) in
      ret (Some [TextContent (u "ファイル '" ++ file_path ++ u "' の内容:"
                              ++ [LF; LF] ++ content)])
    else
      ret (Some [TextContent (u "ファイル '" ++ file_path ++ u "' が見つかりません。")])
  else if action == Some (u "write") then
    let content := default (u "") (arguments !! "content"%string) in
    let* file_path := path_join filename in
    fs_do (fun fs => let '(r, fs') := fs_write_text fs file_path content in
                     (r, fs' (env_now env))) ;;
    ret (Some [TextContent (u "ファイル '" ++ file_path ++ u "' に書き込みました。")])
  else if action == Some (u "delete") then
    let* file_path := path_join filename in
    let* fs := get_fs in
    if fs_exists fs file_path then
      fs_do (fun fs => fs_unlink fs file_path) ;;
      ret (Some [TextContent (u "ファイル '" ++ file_path ++ u "' を削除しました。")])
    else
      ret (Some [TextContent (u "ファイル '" ++ file_path ++ u "' が見つかりません。")])
  else
    ret None.

(** [INSERT INTO notes (title, content) VALUES (?, ?)], [commit], and
    [cursor.lastrowid]. *)
Definition insert_note (title content : str) : M FS Z :=
  let* db := get_db in
  let rowid := next_rowid (map n_id (notes db)) (notes_seq db) in
  let now := Some (current_timestamp rt (env_now env)) in
  put_db {| notes := notes db ++ [ {| n_id := rowid; n_title := title;
                                      n_content := content;
                                      n_created_at := now; n_updated_at := now |} ];
            notes_seq := rowid;
            tasks := tasks db;
            tasks_seq := tasks_seq db |} ;;
  ret rowid.

(** [SELECT * FROM notes WHERE title LIKE ? OR content LIKE ?
     ORDER BY updated_at DESC] *)
Definition search_notes (pattern : str) : M FS (list note) :=
  let* db := get_db in
  ret (order_by_desc n_updated_at
         (List.filter (fun r => sql_like rt pattern (n_title r)
                                || sql_like rt pattern (n_content r))
                      (notes db))).

Definition note_manager (arguments : gmap string str)
  : M FS (option (list content)) :=
  let action := arguments !! "action"%string in
  if action == Some (u "create") then
    let title := default (u "無題") (arguments !! "title"%string) in
    let content := default (u "") (arguments !! "content"%string) in
    let* note_id := insert_note title content in
    ret (Some [TextContent (u "ノート '" ++ title ++ u "' を作成しました（ID: "
                            ++ str_of_Z note_id ++ u "）")])
  else if action == Some (u "search") then
    let query := default (u "") (arguments !! "search_query"%string) in
    let* notes := search_notes (u "%" ++ query ++ u "%") in
    match notes with
    | _ :: _ =>
        let result :=
          u "検索結果 ('" ++ query ++ u "'):" ++ [LF; LF]
          ++ concat (map (fun note =>
                            u "ID: " ++ str_of_Z (n_id note) ++ u " | " ++ n_title note
                            ++ [LF] ++ slice_to 100 (n_content note) ++ u "..."
                            ++ [LF; LF])
                         notes) in
        ret (Some [TextContent result])
    | [] =>
        ret (Some [TextContent (u "'" ++ query
                                ++ u "' に一致するノートが見つかりませんでした。")])
    end
  else
    (* その他のnote_manager操作... *)
    ret None.

Definition system_info (arguments : gmap string str)
  : M FS (option (list content)) :=
  let command := arguments !! "command"%string in
  if command == Some (u "disk_usage") then
    emit (RunProcess [u "df"; u "-h"]) ;;
    let* stdout := lift (env_df env) in
    ret (Some [TextContent (u "ディスク使用量:" ++ [LF] ++ stdout)])
  else if command == Some (u "current_time") then
    let current_time := strftime rt (env_now env) in
    ret (Some [TextContent (u "現在時刻: " ++ current_time)])
  else if command == Some (u "weather") then
    let location := default (u "Tokyo") (arguments !! "location"%string) in
    ret (Some [TextContent (location ++ u "の天気情報を取得するにはAPIキーが必要です。")])
  else
    ret None.

Definition web_request (arguments : gmap string str)
  : M FS (option (list content)) :=
  let url := arguments !! "url"%string in
  let method := default (u "GET") (arguments !! "method"%string) in
  try_except
    (if method == u "GET" then
       emit (HttpGet url 10) ;;
       let* response := lift (env_http_get env url 10) in
       ret (Some [TextContent (u "HTTP " ++ str_of_Z (fst response) ++ u " レスポンス:"
                               ++ [LF] ++ slice_to 1000 (snd response) ++ u "...")])
     else
       ret (Some [TextContent (u "POSTリクエストは実装中です。")]))
    (fun e => ret (Some [TextContent (u "リクエストエラー: " ++ exc_str e)])).

Definition handle_call_tool (name : str) (arguments : gmap string str)
  : M FS (list content) :=
  let* returned :=
    try_except
      (if name == u "file_operations" then file_operations arguments
       else if name == u "note_manager" then note_manager arguments
       else if name == u "system_info" then system_info arguments
       else if name == u "web_request" then web_request arguments
       else ret None)
      (fun e => ret (Some [TextContent (u "エラーが発生しました: " ++ exc_str e)])) in
  match returned with
  | Some result => ret result
  | None => ret [TextContent (u "不明なツール: " ++ name)]
  end.

End Handlers.

Definition handle_list_resources : list Resource :=
  [ {| r_uri := u "mcp://workspace-files";
       r_name := u "Workspace Files";
       r_description := u "Files in the MCP workspace directory";
       r_mimeType := u "application/json" |};
    {| r_uri := u "mcp://notes";
       r_name := u "Stored Notes";
       r_description := u "Notes stored in local database";
       r_mimeType := u "application/json" |};
    {| r_uri := u "mcp://tasks";
       r_name := u "Task List";
       r_description := u "Task management system";
       r_mimeType := u "application/json" |} ].

(** The database file as SQLite finds it: a table that was never created
    is [None], a table is its rows with its AUTOINCREMENT counter. *)
Record db_file := {
  f_notes : option (list note * Z);
  f_tasks : option (list task * Z)
}.

(** The file [sqlite3.connect] creates when there is none. *)
Definition new_file : db_file := {| f_notes := None; f_tasks := None |}.

(** [CREATE TABLE IF NOT EXISTS] *)
Definition create_table_if_not_exists {A} (table : option (list A * Z))
  : option (list A * Z) :=
  match table with
  | Some t => Some t
  | None => Some ([], 0)
  end.

Definition init_database (f : db_file) : db_file :=
  {| f_notes := create_table_if_not_exists (f_notes f);
     f_tasks := create_table_if_not_exists (f_tasks f) |}.

(** The two tables, when both exist. *)
Definition tables (f : db_file) : option database :=
  match f_notes f, f_tasks f with
  | Some (n, ns), Some (t, ts) =>
      Some {| notes := n; notes_seq := ns; tasks := t; tasks_seq := ts |}
  | _, _ => None
  end.

End Advanced.

(* ===================================================================== *)
(** ** Calls one after another *)
(* ===================================================================== *)

(** A tool call as the server receives it, with the outside world it
    finds. *)
Record call := {
  call_env : Env;
  call_name : str;
  call_arguments : gmap string str
}.


(* ===================================================================== *)
(** ** Reference notions the properties are stated against *)
(* ===================================================================== *)

Module Spec.

(** Position [i] of [t] starts a maximal whitespace-separated run: the
    character there is not whitespace and it is the first one or follows
    a whitespace character. *)
Definition starts_run (t : str) (i : nat) : bool :=
  negb (isspace (nth i t 0%N))
  && match i with
     | O => true
     | S j => isspace (nth j t 0%N)
     end.

Definition maximal_runs (t : str) : nat :=
  length (List.filter (starts_run t) (seq 0 (length t))).

(** The number of runs that start in [t], given whether the character
    before [t] is whitespace (or [t] is at the beginning). *)
Fixpoint runs_after (prev_ws : bool) (t : str) : nat :=
  match t with
  | [] => 0
  | c :: r =>
      if isspace c then runs_after true r
      else ((if prev_ws then 1 else 0) + runs_after false r)%nat
  end.

(** Whether the text [p] read so far ends in whitespace (or is empty). *)
Definition ends_ws (p : str) : bool :=
  match rev p with
  | [] => true
  | c :: _ => isspace c
  end.

(** The number of occurrences of a character. *)
Definition occurrences (c : char) (t : str) : nat :=
  length (List.filter (fun x => (x =? c)%N) t).

(** The text without its spaces, newlines and tabs. *)
Definition is_blank (c : char) : bool :=
  ((c =? SPACE) || (c =? LF) || (c =? TAB))%N.

Definition without_blanks (t : str) : str :=
  List.filter (fun c => negb (is_blank c)) t.

(** The outbound events of a call: [df] is run for [disk_usage], an HTTP
    request goes out for a GET [web_request]. *)
Definition events_of (name : str) (arguments : gmap string str) : list event :=
  if name == u "system_info" then
    if arguments !! "command"%string == Some (u "disk_usage")
    then [RunProcess [u "df"; u "-h"]] else []
  else if name == u "web_request" then
    if default (u "GET") (arguments !! "method"%string) == u "GET"
    then [HttpGet (arguments !! "url"%string) 10] else []
  else [].


(** The names [handle_call_tool] compares [name] with. *)
Definition simple_dispatch : list str :=
  [u "calculator"; u "text_analyzer"; u "reverse_text"].

Definition advanced_dispatch : list str :=
  [u "file_operations"; u "note_manager"; u "system_info"; u "web_request"].





End Spec.

(* ===================================================================== *)
(** ** An in-memory workspace and a plain runtime

    A concrete [FileSystem], [Runtime] and [Env] on which the handlers
    run by computation. *)
(* ===================================================================== *)

Module MemFS.

Record entry := {
  e_name : str;
  e_is_file : bool;
  e_text : str;
  e_mtime : Z
}.

Definition t := list entry.

(** Size in bytes of the UTF-8 encoding. *)
Definition utf8_size (s : str) : Z :=
  foldr (fun c acc =>
           (if (c <? 128)%N then 1 else if (c <? 2048)%N then 2
            else if (c <? 65536)%N then 3 else 4) + acc) 0 s.

Definition to_dirent (e : entry) : dirent :=
  {| d_name := e_name e; d_relpath := e_name e; d_is_file := e_is_file e;
     d_size := utf8_size (e_text e); d_mtime := e_mtime e |}.

Definition lookup (fs : t) (f : str) : option entry :=
  List.find (fun e => e_name e == f) fs.

Definition no_such_file : exc := Exc OSError (u "[Errno 2] No such file or directory").
Definition is_a_directory : exc := Exc OSError (u "[Errno 21] Is a directory").

Definition read_text (fs : t) (f : str) : Res str :=
  match lookup fs f with
  | Some e => if e_is_file e then Return (e_text e) else Raise is_a_directory
  | None => Raise no_such_file
  end.

Definition write_text (fs : t) (f content : str) : Res unit * (Z -> t) :=
  let new now := {| e_name := f; e_is_file := true; e_text := content; e_mtime := now |} in
  match lookup fs f with
  | Some e =>
      if e_is_file e then
        (Return tt, fun now => map (fun e' => if e_name e' == f then new now else e') fs)
      else (Raise is_a_directory, fun _ => fs)
  | None => (Return tt, fun now => fs ++ [new now])
  end.

Definition unlink (fs : t) (f : str) : Res unit * t :=
  match lookup fs f with
  | Some e =>
      if e_is_file e then
        (Return tt, List.filter (fun e' => negb (e_name e' == f)) fs)
      else (Raise is_a_directory, fs)
  | None => (Raise no_such_file, fs)
  end.

#[global] Instance file_system : FileSystem t := {|
  fs_iterdir fs := map to_dirent fs;
  fs_rglob fs := map to_dirent fs;
  fs_exists fs f := match lookup fs f with Some _ => true | None => false end;
  fs_read_text := read_text;
  fs_write_text := write_text;
  fs_unlink := unlink
|}.

End MemFS.

Module Plain.

(** [json.dumps(j, indent=2, ensure_ascii=False)] *)
Definition hex_digit (n : N) : char :=
  (if n <? 10 then 48 + n else 87 + n)%N.

Definition escape (c : char) : str :=
  let backslash := 92%N in
  if (c =? 34)%N then [backslash; 34%N]
  else if (c =? 92)%N then [backslash; backslash]
  else if (c =? 10)%N then backslash :: u "n"
  else if (c =? 13)%N then backslash :: u "r"
  else if (c =? 9)%N then backslash :: u "t"
  else if (c =? 8)%N then backslash :: u "b"
  else if (c =? 12)%N then backslash :: u "f"
  else if (c <? 32)%N then
    backslash :: u "u00" ++ [hex_digit (c / 16); hex_digit (c mod 16)]
  else [c].

Definition quoted (s : str) : str := [34%N] ++ flat_map escape s ++ [34%N].

Definition indent (level : nat) : str := repeat SPACE (2 * level).

Fixpoint dumps (level : nat) (j : json) : str :=
  match j with
  | JNull => u "null"
  | JInt z => str_of_Z z
  | JStr s => quoted s
  | JList [] => u "[]"
  | JList (x :: r) =>
      u "[" ++ [LF] ++ indent (S level) ++ dumps (S level) x
      ++ (fix items (l : list json) : str :=
            match l with
            | [] => []
            | y :: l' => u "," ++ [LF] ++ indent (S level) ++ dumps (S level) y ++ items l'
            end) r
      ++ [LF] ++ indent level ++ u "]"
  | JDict [] => u "{}"
  | JDict ((k, v) :: r) =>
      u "{" ++ [LF] ++ indent (S level) ++ quoted (bytes_of k) ++ u ": " ++ dumps (S level) v
      ++ (fix fields (l : list (string * json)) : str :=
            match l with
            | [] => []
            | (k', v') :: l' =>
                u "," ++ [LF] ++ indent (S level) ++ quoted (bytes_of k') ++ u ": "
                ++ dumps (S level) v' ++ fields l'
            end) r
      ++ [LF] ++ indent level ++ u "}"
  end.

(** The calendar date of a day number (days since 1970-01-01), and the
    renderings of a clock reading in a process whose local time is UTC. *)
Definition civil_from_days (days : Z) : Z * Z * Z :=
  let z := days + 719468 in
  let era := z / 146097 in
  let doe := z - era * 146097 in
  let yoe := (doe - doe / 1460 + doe / 36524 - doe / 146096) / 365 in
  let doy := doe - (365 * yoe + yoe / 4 - yoe / 100) in
  let mp := (5 * doy + 2) / 153 in
  let d := doy - (153 * mp + 2) / 5 + 1 in
  let m := if mp <? 10 then mp + 3 else mp - 9 in
  let y := yoe + era * 400 + (if m <=? 2 then 1 else 0) in
  (y, m, d).

Definition pad (width : nat) (z : Z) : str :=
  let digits := str_of_Z z in
  repeat 48%N (width - length digits) ++ digits.

Definition date_time (sep : str) (t : Z) : str :=
  let '(y, m, d) := civil_from_days (t / 86400) in
  let s := t mod 86400 in
  pad 4 y ++ u "-" ++ pad 2 m ++ u "-" ++ pad 2 d ++ sep
  ++ pad 2 (s / 3600) ++ u ":" ++ pad 2 (s mod 3600 / 60) ++ u ":" ++ pad 2 (s mod 60).

(** SQLite [LIKE]: [%] stands for any characters, [_] for one; ASCII
    letters match without regard to case. *)
Definition lower (c : char) : char :=
  (if (65 <=? c) && (c <=? 90) then c + 32 else c)%N.

Fixpoint like (pattern text : str) : bool :=
  match pattern with
  | [] => match text with [] => true | _ => false end
  | c :: p' =>
      if (c =? 37)%N then
        (fix any (t : str) : bool :=
           like p' t || match t with [] => false | _ :: t' => any t' end) text
      else
        match text with
        | [] => false
        | x :: t' => ((c =? 95)%N || (lower c =? lower x)%N) && like p' t'
        end
  end.

Definition runtime : Runtime := {|
  json_dumps := dumps 0;
  isoformat := date_time (u "T");
  strftime := date_time (u " ");
  current_timestamp := date_time (u " ");
  sql_like := like
|}.

(** An outside world: the clock reads [now], one host answers, and
    [eval] knows three expressions and rejects the rest. *)
Definition quitter : str :=
  u "[c for c in ().__class__.__base__.__subclasses__() if c.__name__ == 'Quitter'][0]('q', 'e')()".

Definition env_at (now : Z) : Env := {|
  env_now := now;
  env_df := Return (u "Filesystem Size Used Avail Use% Mounted on");
  env_http_get url timeout :=
    match url with
    | Some x =>
        if x == u "http://localhost/ok" then Return (200, u "ok")
        else Raise (Exc RequestException (u "Connection refused"))
    | None => Raise (Exc RequestException (u "Invalid URL 'None': No scheme supplied."))
    end;
  env_eval expression builtins names :=
    if expression == u "2 + 3 * 4" then Return (u "14")
    else if expression == u "1/0" then Raise (Exc ZeroDivisionError (u "division by zero"))
    else if expression == quitter then Raise (Exc SystemExit (u "None"))
    else Raise (Exc SyntaxError (u "invalid syntax (<string>, line 0)"))
|}.

Definition workspace : MemFS.t :=
  [ {| MemFS.e_name := u "notes.db"; MemFS.e_is_file := true;
       MemFS.e_text := u ""; MemFS.e_mtime := 1704099600 |};
    {| MemFS.e_name := u "todo.txt"; MemFS.e_is_file := true;
       MemFS.e_text := u "buy milk"; MemFS.e_mtime := 1704103200 |};
    {| MemFS.e_name := u "archive"; MemFS.e_is_file := false;
       MemFS.e_text := u ""; MemFS.e_mtime := 1704106800 |} ].

Definition db0 : database :=
  {| notes := [ {| n_id := 1; n_title := u "first"; n_content := u "hello";
                   n_created_at := Some (u "2024-01-01 09:00:00");
                   n_updated_at := Some (u "2024-01-01 09:00:00") |} ];
     notes_seq := 1;
     tasks := [];
     tasks_seq := 0 |}.

Definition world : World MemFS.t :=
  {| w_fs := workspace; w_db := db0; w_log := [] |}.

(** An outside world in which the user interrupts [df], and one in which
    [df] cannot be started. *)
Definition env_interrupted : Env := {|
  env_now := 0;
  env_df := Raise (Exc KeyboardInterrupt (u ""));
  env_http_get := env_http_get (env_at 0);
  env_eval := env_eval (env_at 0)
|}.

Definition env_without_df : Env := {|
  env_now := 0;
  env_df := Raise (Exc OSError (u "[Errno 2] No such file or directory: 'df'"));
  env_http_get := env_http_get (env_at 0);
  env_eval := env_eval (env_at 0)
|}.

End Plain.

(* ===================================================================== *)
(** * Properties *)
(* ===================================================================== *)

(** ** Literals and string functions on concrete inputs *)

Example u_ascii : u "GET" = [71; 69; 84]%N.
Proof. reflexivity. Qed.

Example u_kana : u "無題" = [28961; 38988]%N.
Proof. reflexivity. Qed.

Example str_of_Z_200 : str_of_Z 200 = u "200".
Proof. reflexivity. Qed.

Example str_of_Z_0 : str_of_Z 0 = u "0".
Proof. reflexivity. Qed.

Example split_ws_ex : split_ws (u "  ab  c" ++ [LF] ++ u "d ") = [u "ab"; u "c"; u "d"].
Proof. reflexivity. Qed.

Example split_on_ex : split_on LF (u "a" ++ [LF; LF] ++ u "b") = [u "a"; u ""; u "b"].
Proof. reflexivity. Qed.

Example slice_reversed_ex : slice_reversed (u "abc") = u "cba".
Proof. reflexivity. Qed.

Example replace1_ex : replace1 SPACE (u "") (u "a b  c") = u "abc".
Proof. reflexivity. Qed.

Arguments u : simpl never.
Arguments str_of_Z : simpl never.
Arguments str_of_nat : simpl never.

(** ** Tactics *)

(** Decide the comparisons of two literals that the goal contains. *)
Ltac literal_tests :=
  repeat match goal with
    | |- context [Py.eqb ?a ?b] =>
        let v := eval vm_compute in (Py.eqb a b) in
        match v with
        | true => replace (Py.eqb a b) with true by (vm_compute; reflexivity)
        | false => replace (Py.eqb a b) with false by (vm_compute; reflexivity)
        end
    end.

Lemma eqb_true {A} `{EqDecision A} (a b : A) : (a == b) = true <-> a = b.
Proof. unfold Py.eqb. apply bool_decide_eq_true. Qed.

Lemma eqb_false {A} `{EqDecision A} (a b : A) : (a == b) = false <-> a <> b.
Proof. unfold Py.eqb. apply bool_decide_eq_false. Qed.

Lemma eqb_eq {A} `{EqDecision A} (a b : A) : (a == b) = true -> a = b.
Proof. apply eqb_true. Qed.

Lemma eqb_neq {A} `{EqDecision A} (a b : A) : (a == b) = false -> a <> b.
Proof. apply eqb_false. Qed.


(** ** String functions *)

Section Strings.

Lemma slice_reversed_length (t : str) : length (slice_reversed t) = length t.
Proof. unfold slice_reversed. rewrite List.length_map, List.length_seq. reflexivity. Qed.

Lemma nth_map_seq {A} (f : nat -> A) (n i : nat) (d : A) :
  (i < n)%nat -> nth i (map f (seq 0 n)) d = f i.
Proof.
  intros Hi.
  rewrite (nth_indep _ d (f 0%nat)) by (rewrite List.length_map, List.length_seq; exact Hi).
  rewrite map_nth, seq_nth by exact Hi. reflexivity.
Qed.

Lemma slice_reversed_nth (t : str) (i : nat) :
  (i < length t)%nat ->
  nth i (slice_reversed t) 0%N = nth (length t - 1 - i) t 0%N.
Proof. intros Hi. unfold slice_reversed. rewrite nth_map_seq by exact Hi. reflexivity. Qed.

Lemma slice_reversed_rev (t : str) : slice_reversed t = rev t.
Proof.
  apply (nth_ext _ _ 0%N 0%N).
  - rewrite slice_reversed_length, List.length_rev. reflexivity.
  - intros i Hi. rewrite slice_reversed_length in Hi.
    rewrite slice_reversed_nth by exact Hi.
    rewrite rev_nth by exact Hi. f_equal. lia.
Qed.

Lemma slice_reversed_involutive (t : str) : slice_reversed (slice_reversed t) = t.
Proof. rewrite !slice_reversed_rev. apply rev_involutive. Qed.

(** [split(sep)] yields one piece more than there are separators. *)
Lemma split_on_from_length (sep : char) (t cur : str) :
  length (split_on_from sep cur t) = S (Spec.occurrences sep t).
Proof.
  revert cur. induction t as [|c r IH]; intros cur; simpl.
  - reflexivity.
  - unfold Spec.occurrences in *. simpl.
    destruct (c =? sep)%N; simpl; rewrite IH; reflexivity.
Qed.

Lemma split_on_length (sep : char) (t : str) :
  length (split_on sep t) = (Spec.occurrences sep t + 1)%nat.
Proof. unfold split_on. rewrite split_on_from_length. lia. Qed.

Lemma split_ws_from_length (t cur : str) :
  length (split_ws_from cur t)
  = ((match cur with [] => 0 | _ => 1 end)
     + Spec.runs_after (match cur with [] => true | _ => false end) t)%nat.
Proof.
  revert cur. induction t as [|c r IH]; intros cur; simpl.
  - destruct cur; reflexivity.
  - destruct (isspace c).
    + destruct cur; simpl; rewrite IH; reflexivity.
    + rewrite IH. destruct cur; simpl; lia.
Qed.

Lemma starts_run_app (p r : str) (c : char) :
  Spec.starts_run (p ++ c :: r) (length p) = negb (isspace c) && Spec.ends_ws p.
Proof.
  unfold Spec.starts_run, Spec.ends_ws.
  rewrite nth_middle. f_equal.
  destruct (length p) as [|j] eqn:Hlen.
  - destruct p; [reflexivity | discriminate].
  - destruct (rev p) as [|x q] eqn:Hrev.
    + apply (f_equal (@length _)) in Hrev. rewrite List.length_rev in Hrev.
      simpl in Hrev. lia.
    + assert (Hp : p = rev q ++ [x]).
      { rewrite <- (rev_involutive p), Hrev. reflexivity. }
      subst p. rewrite List.length_app, List.length_rev in Hlen. simpl in Hlen.
      assert (Hj : j = length (rev q)) by (rewrite List.length_rev; lia).
      subst j. rewrite <- List.app_assoc. simpl. rewrite nth_middle. reflexivity.
Qed.

Lemma runs_positions (t p : str) :
  length (List.filter (Spec.starts_run (p ++ t)) (seq (length p) (length t)))
  = Spec.runs_after (Spec.ends_ws p) t.
Proof.
  revert p. induction t as [|c r IH]; intros p; simpl.
  - reflexivity.
  - rewrite starts_run_app.
    specialize (IH (p ++ [c])).
    rewrite <- List.app_assoc, List.length_app in IH. simpl in IH.
    replace (length p + 1)%nat with (S (length p)) in IH by lia.
    assert (Hend : Spec.ends_ws (p ++ [c]) = isspace c).
    { unfold Spec.ends_ws. rewrite rev_app_distr. reflexivity. }
    rewrite Hend in IH.
    destruct (isspace c); simpl.
    + exact IH.
    + destruct (Spec.ends_ws p); simpl; rewrite IH; reflexivity.
Qed.

(** [split()] yields as many words as there are maximal runs. *)
Lemma split_ws_length (t : str) : length (split_ws t) = Spec.maximal_runs t.
Proof.
  unfold split_ws, Spec.maximal_runs.
  rewrite split_ws_from_length. simpl.
  symmetry. apply (runs_positions t []).
Qed.

(** Replacing a character by the empty string removes it. *)
Lemma replace1_empty (c : char) (t : str) :
  replace1 c [] t = List.filter (fun x => negb (x =? c)%N) t.
Proof.
  unfold replace1. induction t as [|x r IH]; simpl.
  - reflexivity.
  - destruct (x =? c)%N; simpl; rewrite IH; reflexivity.
Qed.

Lemma filter_filter {A} (f g : A -> bool) (l : list A) :
  List.filter f (List.filter g l) = List.filter (fun x => g x && f x) l.
Proof.
  induction l as [|x r IH]; simpl.
  - reflexivity.
  - destruct (g x); simpl; [destruct (f x)|]; rewrite IH; reflexivity.
Qed.

Lemma remove_blanks (t : str) :
  replace1 TAB (u "") (replace1 LF (u "") (replace1 SPACE (u "") t))
  = Spec.without_blanks t.
Proof.
  change (u "") with (@nil char).
  rewrite !replace1_empty, !filter_filter.
  unfold Spec.without_blanks, Spec.is_blank.
  apply filter_ext. intros c.
  destruct (c =? SPACE)%N, (c =? LF)%N, (c =? TAB)%N; reflexivity.
Qed.

End Strings.

(** ** Running a handler *)

Ltac run :=
  unfold bind, ret, raise, lift, try_except, get_fs, get_db, put_db, emit, fs_do;
  cbn.

Section SimpleServer.
Context {FS : Type}.
Implicit Types (env : Env) (arguments : gmap string str) (w : World FS).

(** C5. The [reverse_text] tool returns the character-wise reversal of
    its text: the reversed text has the length of the text, its [i]-th
    character is the [(n-1-i)]-th character of the text, and reversing
    twice gives the text back. *)
Theorem reverse_text_reverses env arguments w :
  let t := default (u "") (arguments !! "text"%string) in
  let r := slice_reversed t in
  Simple.handle_call_tool env (u "reverse_text") arguments w
  = (Return [TextContent (u "元のテキスト: " ++ t ++ [LF] ++ u "逆順テキスト: " ++ r)], w)
  /\ length r = length t
  /\ (forall i, (i < length t)%nat -> nth i r 0%N = nth (length t - 1 - i) t 0%N)
  /\ slice_reversed r = t.
Proof.
  intros t r. split; [|split; [|split]].
  - unfold Simple.handle_call_tool. literal_tests. reflexivity.
  - apply slice_reversed_length.
  - apply slice_reversed_nth.
  - apply slice_reversed_involutive.
Qed.

(** C8. The [text_analyzer] tool reports the length of the text, the
    number of its maximal whitespace-separated runs, the number of its
    newline characters plus one, and the length of the text without its
    spaces, newlines and tabs; for the empty text that is 0 characters,
    0 words, 1 line and 0 non-blank characters. *)
Theorem text_analyzer_counts env arguments w :
  let t := default (u "") (arguments !! "text"%string) in
  Simple.handle_call_tool env (u "text_analyzer") arguments w
  = (Return [TextContent
       (u "テキスト分析結果:" ++ [LF]
        ++ u "文字数: " ++ str_of_nat (length t) ++ [LF]
        ++ u "単語数: " ++ str_of_nat (Spec.maximal_runs t) ++ [LF]
        ++ u "行数: " ++ str_of_nat (Spec.occurrences LF t + 1) ++ [LF]
        ++ u "空白を除く文字数: " ++ str_of_nat (length (Spec.without_blanks t))
        ++ [LF])], w)
  /\ Simple.handle_call_tool env (u "text_analyzer") (<["text"%string := u ""]> arguments) w
     = (Return [TextContent
          (u "テキスト分析結果:" ++ [LF]
           ++ u "文字数: 0" ++ [LF]
           ++ u "単語数: 0" ++ [LF]
           ++ u "行数: 1" ++ [LF]
           ++ u "空白を除く文字数: 0" ++ [LF])], w).
Proof.
  intros t. split.
  - unfold Simple.handle_call_tool. literal_tests. fold t.
    rewrite split_ws_length, split_on_length, remove_blanks. reflexivity.
  - unfold Simple.handle_call_tool. literal_tests.
    rewrite lookup_insert_eq. reflexivity.
Qed.


End SimpleServer.

(** A name outside a list of literals fails every comparison with them. *)
Ltac other_name H :=
  repeat match goal with
    | |- context [Py.eqb ?n (u ?l)] =>
        replace (Py.eqb n (u l)) with false
          by (symmetry; apply eqb_false; intros ->; apply H; simpl; auto 10)
    end.

Section SimpleResources.
Context {FS : Type}.


Lemma simple_unknown_tool (env : Env) (name : str) (arguments : gmap string str)
    (w : World FS) :
  ~ In name Spec.simple_dispatch ->
  Simple.handle_call_tool env name arguments w
  = (Raise (Exc ValueError (u "Unknown tool: " ++ name)), w).
Proof.
  intros Hname. unfold Simple.handle_call_tool, Spec.simple_dispatch in *.
  other_name Hname. reflexivity.
Qed.

End SimpleResources.

Section AdvancedServer.
Context {FS : Type} `{FileSystem FS} (rt : Runtime).
Implicit Types (env : Env) (arguments : gmap string str) (w : World FS).



(** C4. A tool name that is none of the names a server compares with is
    reported as unknown, whatever the arguments: the simple server raises
    [ValueError], the advanced server returns a 不明なツール text; the
    store and the event log are left as they were. *)
Theorem unknown_tool_reported env (name : str) arguments w :
  (~ In name Spec.simple_dispatch ->
   Simple.handle_call_tool env name arguments w
   = (Raise (Exc ValueError (u "Unknown tool: " ++ name)), w))
  /\ (~ In name Spec.advanced_dispatch ->
      Advanced.handle_call_tool rt env name arguments w
      = (Return [TextContent (u "不明なツール: " ++ name)], w)).
Proof.
  split.
  - apply simple_unknown_tool.
  - intros Hname. unfold Advanced.handle_call_tool, Spec.advanced_dispatch in *.
    other_name Hname. reflexivity.
Qed.

(** C1, evaluated on the code.  [handle_list_tools] advertises
    [task_manager] with five actions and [note_manager] with the actions
    read, update and delete among its five, but [handle_call_tool] has no
    branch for them: each of these calls returns the 不明なツール text and
    changes nothing. *)
Theorem advertised_actions_not_implemented env arguments w :
  Advanced.enum_of (u "task_manager") Advanced.handle_list_tools
  = [[u "create"; u "list"; u "update"; u "complete"; u "delete"]]
  /\ Advanced.enum_of (u "note_manager") Advanced.handle_list_tools
     = [[u "create"; u "read"; u "update"; u "delete"; u "search"]]
  /\ Advanced.handle_call_tool rt env (u "task_manager") arguments w
     = (Return [TextContent (u "不明なツール: " ++ u "task_manager")], w)
  /\ Advanced.handle_call_tool rt env (u "note_manager")
       (<["action"%string := u "read"]> arguments) w
     = (Return [TextContent (u "不明なツール: " ++ u "note_manager")], w)
  /\ Advanced.handle_call_tool rt env (u "note_manager")
       (<["action"%string := u "update"]> arguments) w
     = (Return [TextContent (u "不明なツール: " ++ u "note_manager")], w)
  /\ Advanced.handle_call_tool rt env (u "note_manager")
       (<["action"%string := u "delete"]> arguments) w
     = (Return [TextContent (u "不明なツール: " ++ u "note_manager")], w).
Proof.
  split; [vm_compute; reflexivity|].
  split; [vm_compute; reflexivity|].
  split; [unfold Advanced.handle_call_tool; literal_tests; reflexivity|].
  split; [|split];
    unfold Advanced.handle_call_tool, Advanced.note_manager;
    rewrite lookup_insert_eq; literal_tests; reflexivity.
Qed.

(** C7. A [web_request] with method GET (also when the key is missing)
    calls [requests.get] once, on the given URL with a timeout of 10, and
    returns the status code with the first 1000 characters of the body;
    a failure of the request (an exception derived from [Exception], as
    those of [requests] are) is returned as a リクエストエラー text.  With
    method POST no request goes out and a fixed 実装中 text is returned.
    The store is never changed. *)
Theorem web_request_behaviour env arguments w :
  let url := arguments !! "url"%string in
  let method := default (u "GET") (arguments !! "method"%string) in
  let call := Advanced.handle_call_tool rt env (u "web_request") arguments w in
  (method = u "GET" ->
   snd call = {| w_fs := w_fs w; w_db := w_db w;
                 w_log := w_log w ++ [HttpGet url 10] |}
   /\ (forall status body, env_http_get env url 10 = Return (status, body) ->
         fst call
         = Return [TextContent (u "HTTP " ++ str_of_Z status ++ u " レスポンス:" ++ [LF]
                                ++ firstn 1000 body ++ u "...")]
         /\ (length (firstn 1000 body) <= 1000)%nat)
   /\ (forall e, env_http_get env url 10 = Raise e ->
         is_Exception (exc_type e) = true ->
         fst call = Return [TextContent (u "リクエストエラー: " ++ exc_str e)]))
  /\ (method = u "POST" ->
      call = (Return [TextContent (u "POSTリクエストは実装中です。")], w)).
Proof.
  intros url method call. subst call.
  unfold Advanced.handle_call_tool, Advanced.web_request. literal_tests.
  fold url. fold method. split.
  - intros ->. literal_tests. run.
    destruct (env_http_get env url 10) as [[status body]|e] eqn:Hget; simpl.
    + split; [reflexivity|]. split.
      * intros status' body' [= <- <-]. split; [reflexivity|].
        apply firstn_le_length.
      * intros e [=].
    + destruct (is_Exception (exc_type e)) eqn:He; simpl; rewrite ?He; simpl.
      * split; [reflexivity|]. split.
        -- intros status body [=].
        -- intros e' [= <-] _. reflexivity.
      * split; [reflexivity|]. split.
        -- intros status body [=].
        -- intros e' [= <-] He'. congruence.
  - intros ->. literal_tests. reflexivity.
Qed.

(** C9. Both workspace listings, the [mcp://workspace-files] resource
    and the [list] action of [file_operations], are built from exactly
    the directory entries that are regular files and are not named
    [notes.db]: the database file is never among them. *)
Theorem listings_exclude_database env arguments w :
  arguments !! "action"%string = Some (u "list") ->
  let in_resource := List.filter Advanced.listed (fs_rglob (w_fs w)) in
  let in_tool := List.filter Advanced.listed (fs_iterdir (w_fs w)) in
  Advanced.handle_read_resource rt (u "mcp://workspace-files") w
  = (Return (json_dumps rt (JList (map (Advanced.resource_file rt) in_resource))), w)
  /\ Advanced.handle_call_tool rt env (u "file_operations") arguments w
     = (Return [TextContent (u "ワークスペースファイル一覧:" ++ [LF]
                             ++ json_dumps rt (JList (map (Advanced.tool_file rt) in_tool)))],
        w)
  /\ (forall d, In d in_resource <->
                In d (fs_rglob (w_fs w)) /\ d_is_file d = true /\ d_name d <> u "notes.db")
  /\ (forall d, In d in_tool <->
                In d (fs_iterdir (w_fs w)) /\ d_is_file d = true /\ d_name d <> u "notes.db").
Proof.
  intros Haction in_resource in_tool.
  assert (Hlisted : forall d, Advanced.listed d = true <->
                              d_is_file d = true /\ d_name d <> u "notes.db").
  { intros d. unfold Advanced.listed.
    rewrite andb_true_iff, negb_true_iff, eqb_false. reflexivity. }
  split; [|split; [|split]].
  - unfold Advanced.handle_read_resource. literal_tests. reflexivity.
  - unfold Advanced.handle_call_tool, Advanced.file_operations.
    rewrite Haction. literal_tests. reflexivity.
  - intros d. unfold in_resource. rewrite filter_In, Hlisted. reflexivity.
  - intros d. unfold in_tool. rewrite filter_In, Hlisted. reflexivity.
Qed.

Lemma next_rowid_above (ids : list Z) (seq : Z) :
  Forall (fun i => i < Advanced.next_rowid ids seq) ids.
Proof.
  unfold Advanced.next_rowid.
  assert (Hmax : Forall (fun i => i <= foldr Z.max 0 ids) ids).
  { induction ids as [|i r IH]; simpl; constructor.
    - lia.
    - eapply List.Forall_impl; [|exact IH]. simpl. intros. lia. }
  eapply List.Forall_impl; [|exact Hmax]. simpl. intros. lia.
Qed.







End AdvancedServer.

(* ===================================================================== *)
(** * The properties on the in-memory workspace *)
(* ===================================================================== *)

Ltac not_among :=
  let Hin := fresh in intros Hin; vm_compute in Hin; intuition discriminate.

Section Runs.
Import Plain.

(** The handlers on the in-memory workspace. *)

Example write_then_read :
  let arguments : gmap string str :=
    {[ "filename"%string := u "memo.txt"; "content"%string := u "call Aki" ]} in
  let written :=
    Advanced.handle_call_tool runtime (env_at 1704110400) (u "file_operations")
      (<["action"%string := u "write"]> arguments) world in
  fst written = Return [TextContent (u "ファイル 'memo.txt' に書き込みました。")]
  /\ fst (Advanced.handle_call_tool runtime (env_at 1704110401) (u "file_operations")
            (<["action"%string := u "read"]> arguments) (snd written))
     = Return [TextContent (u "ファイル 'memo.txt' の内容:" ++ [LF; LF] ++ u "call Aki")].
Proof. split; vm_compute; reflexivity. Qed.

Example read_without_filename :
  fst (Advanced.handle_call_tool runtime (env_at 0) (u "file_operations")
         {[ "action"%string := u "read" ]} world)
  = Return [TextContent (u "エラーが発生しました: unsupported operand type(s) for /: 'PosixPath' and 'NoneType'")].
Proof. vm_compute. reflexivity. Qed.

Example search_finds_note :
  fst (Advanced.handle_call_tool runtime (env_at 0) (u "note_manager")
         {[ "action"%string := u "search"; "search_query"%string := u "HELL" ]} world)
  = Return [TextContent (u "検索結果 ('HELL'):" ++ [LF; LF]
                         ++ u "ID: 1 | first" ++ [LF] ++ u "hello..." ++ [LF; LF])].
Proof. vm_compute. reflexivity. Qed.

Example memory_info_falls_through :
  fst (Advanced.handle_call_tool runtime (env_at 0) (u "system_info")
         {[ "command"%string := u "memory_info" ]} world)
  = Return [TextContent (u "不明なツール: system_info")].
Proof. vm_compute. reflexivity. Qed.




Lemma unknown_tool_reported_witness :
  ~ In (u "task_manager") Spec.simple_dispatch
  /\ Simple.handle_call_tool (env_at 0) (u "task_manager") ∅ world
     = (Raise (Exc ValueError (u "Unknown tool: " ++ u "task_manager")), world)
  /\ ~ In (u "task_manager") Spec.advanced_dispatch
  /\ Advanced.handle_call_tool runtime (env_at 0) (u "task_manager") ∅ world
     = (Return [TextContent (u "不明なツール: " ++ u "task_manager")], world).
Proof.
  assert (Hsim : ~ In (u "task_manager") Spec.simple_dispatch) by not_among.
  assert (Hadv : ~ In (u "task_manager") Spec.advanced_dispatch) by not_among.
  destruct (unknown_tool_reported runtime (env_at 0) (u "task_manager") ∅ world)
    as (Hraise & Htext).
  split; [exact Hsim|]. split; [exact (Hraise Hsim)|].
  split; [exact Hadv|]. exact (Htext Hadv).
Defined.

Lemma reverse_text_reverses_witness :
  (1 < length (u "abc"))%nat
  /\ nth 1 (slice_reversed (u "abc")) 0%N = nth (length (u "abc") - 1 - 1) (u "abc") 0%N.
Proof.
  assert (Hi : (1 < length (u "abc"))%nat) by (vm_compute; lia).
  split; [exact Hi|].
  exact (proj1 (proj2 (proj2
           (reverse_text_reverses (env_at 0) {[ "text"%string := u "abc" ]} world)))
           1%nat Hi).
Defined.



Lemma web_request_behaviour_witness :
  default (u "GET") (({[ "url"%string := u "http://localhost/ok" ]} : gmap string str)
                       !! "method"%string) = u "GET"
  /\ Advanced.handle_call_tool runtime (env_at 0) (u "web_request")
       {[ "url"%string := u "http://localhost/ok" ]} world
     = (Return [TextContent (u "HTTP 200 レスポンス:" ++ [LF] ++ u "ok...")],
        {| w_fs := workspace; w_db := db0;
           w_log := [HttpGet (Some (u "http://localhost/ok")) 10] |})
  /\ Advanced.handle_call_tool runtime (env_at 0) (u "web_request")
       {[ "url"%string := u "http://localhost/down" ]} world
     = (Return [TextContent (u "リクエストエラー: Connection refused")],
        {| w_fs := workspace; w_db := db0;
           w_log := [HttpGet (Some (u "http://localhost/down")) 10] |})
  /\ Advanced.handle_call_tool runtime (env_at 0) (u "web_request")
       {[ "url"%string := u "http://localhost/ok"; "method"%string := u "POST" ]} world
     = (Return [TextContent (u "POSTリクエストは実装中です。")], world).
Proof.
  split; [reflexivity|].
  destruct (web_request_behaviour runtime (env_at 0)
              {[ "url"%string := u "http://localhost/ok" ]} world)
    as (Hget & _).
  destruct (Hget eq_refl) as (Hlog & Hok & _).
  destruct (Hok 200 (u "ok") eq_refl) as (Htext & _).
  destruct (web_request_behaviour runtime (env_at 0)
              {[ "url"%string := u "http://localhost/down" ]} world)
    as (Hget' & _).
  destruct (Hget' eq_refl) as (Hlog' & _ & Hfail).
  pose proof (Hfail (Exc RequestException (u "Connection refused")) eq_refl eq_refl)
    as Htext'.
  destruct (web_request_behaviour runtime (env_at 0)
              {[ "url"%string := u "http://localhost/ok"; "method"%string := u "POST" ]}
              world)
    as (_ & Hpost).
  split; [|split].
  - rewrite (surjective_pairing (Advanced.handle_call_tool _ _ _ _ _)), Htext, Hlog.
    reflexivity.
  - rewrite (surjective_pairing (Advanced.handle_call_tool _ _ _ _ _)), Htext', Hlog'.
    reflexivity.
  - exact (Hpost eq_refl).
Defined.

Lemma listings_exclude_database_witness :
  ({[ "action"%string := u "list" ]} : gmap string str) !! "action"%string
  = Some (u "list")
  /\ map d_name (fs_iterdir workspace) = [u "notes.db"; u "todo.txt"; u "archive"]
  /\ map d_name (List.filter Advanced.listed (fs_iterdir workspace)) = [u "todo.txt"]
  /\ Advanced.handle_call_tool runtime (env_at 0) (u "file_operations")
       {[ "action"%string := u "list" ]} world
     = (Return [TextContent
          (u "ワークスペースファイル一覧:" ++ [LF]
           ++ json_dumps runtime
                (JList [JDict [ ("name", JStr (u "todo.txt")); ("size", JInt 8);
                                ("modified", JStr (u "2024-01-01 10:00:00")) ]%string]))],
        world)
  /\ Advanced.handle_read_resource runtime (u "mcp://workspace-files") world
     = (Return
          (json_dumps runtime
             (JList [JDict [ ("name", JStr (u "todo.txt")); ("path", JStr (u "todo.txt"));
                             ("size", JInt 8);
                             ("modified", JStr (u "2024-01-01T10:00:00")) ]%string])),
        world).
Proof.
  assert (Haction : ({[ "action"%string := u "list" ]} : gmap string str) !! "action"%string
                    = Some (u "list")) by reflexivity.
  destruct (listings_exclude_database runtime (env_at 0) _ world Haction)
    as (Hresource & Htool & _ & _).
  split; [exact Haction|]. split; [vm_compute; reflexivity|].
  split; [vm_compute; reflexivity|]. split.
  - rewrite Htool. vm_compute. reflexivity.
  - rewrite Hresource. vm_compute. reflexivity.
Defined.


End Runs.

(* ===================================================================== *)
(** * Further properties of the handlers *)
(* ===================================================================== *)

(** Case analysis on the tool a call names: in each case [name] is the
    literal and the other comparisons are decided. *)
Ltac on_tool name l :=
  let Hname := fresh "Hname" in
  destruct (Py.eqb name (u l)) eqn:Hname;
  [apply eqb_eq in Hname; subst name; literal_tests | ].

(** Case analysis on what a handler branches on, innermost first. *)
Ltac first_scrutinee x k :=
  lazymatch x with
  | context [match ?y with _ => _ end] => first_scrutinee y k
  | _ => k x
  end.

Ltac cases :=
  repeat (cbn;
          match goal with
          | |- context [match ?x with _ => _ end] =>
              first_scrutinee x ltac:(fun y => destruct y eqn:?)
          end);
  cbn.

Ltac unfold_tools :=
  unfold Advanced.handle_call_tool, Advanced.file_operations, Advanced.note_manager,
    Advanced.system_info, Advanced.web_request, Advanced.path_join,
    Advanced.insert_note, Advanced.search_notes.

Section Effects.
Context {FS : Type} `{FileSystem FS} (rt : Runtime).
Implicit Types (env : Env) (name : str) (arguments : gmap string str) (w : World FS).

Lemma call_log env name arguments w :
  w_log (snd (Advanced.handle_call_tool rt env name arguments w))
  = w_log w ++ Spec.events_of name arguments.
Proof.
  unfold Spec.events_of. unfold_tools.
  on_tool name "file_operations"%string.
  { run. cases; rewrite ?app_nil_r; reflexivity. }
  on_tool name "note_manager"%string.
  { run. cases; rewrite ?app_nil_r; reflexivity. }
  on_tool name "system_info"%string.
  { run. cases; rewrite ?app_nil_r; reflexivity. }
  on_tool name "web_request"%string.
  { run. cases; rewrite ?app_nil_r; reflexivity. }
  run. rewrite app_nil_r. reflexivity.
Qed.

Lemma call_outcome env name arguments w :
  match fst (Advanced.handle_call_tool rt env name arguments w) with
  | Return result => exists text, result = [TextContent text]
  | Raise e => is_Exception (exc_type e) = false
  end.
Proof.
  unfold_tools.
  on_tool name "file_operations"%string.
  { run. cases; eauto. }
  on_tool name "note_manager"%string.
  { run. cases; eauto. }
  on_tool name "system_info"%string.
  { run. cases; eauto. }
  on_tool name "web_request"%string.
  { run. cases; eauto. }
  run. eauto.
Qed.


Lemma call_db env name arguments w :
  w_db (snd (Advanced.handle_call_tool rt env name arguments w)) = w_db w
  \/ (name = u "note_manager"
      /\ arguments !! "action"%string = Some (u "create")
      /\ w_db (snd (Advanced.handle_call_tool rt env name arguments w))
         = {| notes :=
                notes (w_db w)
                ++ [ {| n_id := Advanced.next_rowid (map n_id (notes (w_db w)))
                                                    (notes_seq (w_db w));
                        n_title := default (u "無題") (arguments !! "title"%string);
                        n_content := default (u "") (arguments !! "content"%string);
                        n_created_at := Some (current_timestamp rt (env_now env));
                        n_updated_at := Some (current_timestamp rt (env_now env)) |} ];
              notes_seq := Advanced.next_rowid (map n_id (notes (w_db w)))
                                               (notes_seq (w_db w));
              tasks := tasks (w_db w);
              tasks_seq := tasks_seq (w_db w) |}).
Proof.
  unfold_tools.
  on_tool name "file_operations"%string.
  { run. cases; left; reflexivity. }
  on_tool name "note_manager"%string.
  { run. destruct (arguments !! "action"%string == Some (u "create")) eqn:Hcreate.
    - right. split; [reflexivity|]. split; [apply eqb_eq; exact Hcreate|]. reflexivity.
    - cases; left; reflexivity. }
  on_tool name "system_info"%string.
  { run. cases; left; reflexivity. }
  on_tool name "web_request"%string.
  { run. cases; left; reflexivity. }
  run. left. reflexivity.
Qed.

Lemma NoDup_snoc {A} (l : list A) (x : A) :
  List.NoDup l -> ~ In x l -> List.NoDup (l ++ [x]).
Proof.
  induction l as [|y r IH]; cbn; intros Hl Hx.
  - constructor; [intros [] | constructor].
  - inversion Hl as [|? ? Hy Hr]; subst. constructor.
    + rewrite List.in_app_iff. cbn. intros [Hin | [-> | []]]; [exact (Hy Hin)|].
      apply Hx. left. reflexivity.
    + apply IH; [exact Hr|]. intros Hin. apply Hx. right. exact Hin.
Qed.

(** X1. A tool call of the advanced server never raises an exception
    derived from [Exception], and what it returns is always exactly one
    text item. *)
Theorem call_returns_one_text env name arguments w :
  (forall e, fst (Advanced.handle_call_tool rt env name arguments w) = Raise e ->
             is_Exception (exc_type e) = false)
  /\ (forall result,
        fst (Advanced.handle_call_tool rt env name arguments w) = Return result ->
        exists text, result = [TextContent text]).
Proof.
  pose proof (call_outcome env name arguments w) as Hout.
  split.
  - intros e He. rewrite He in Hout. exact Hout.
  - intros result Hr. rewrite Hr in Hout. exact Hout.
Qed.


(** X3. Note ids stay distinct: if no two rows of the notes table share
    an id before a tool call, none do after it. *)
Theorem note_ids_stay_distinct env name arguments w :
  List.NoDup (map n_id (notes (w_db w))) ->
  List.NoDup (map n_id (notes (w_db (snd (Advanced.handle_call_tool rt env name
                                             arguments w))))).
Proof.
  intros Hdistinct.
  destruct (call_db env name arguments w) as [Hsame | (_ & _ & Hdb)].
  - rewrite Hsame. exact Hdistinct.
  - rewrite Hdb. cbn. rewrite List.map_app. cbn.
    pose proof (next_rowid_above (map n_id (notes (w_db w))) (notes_seq (w_db w)))
      as Habove.
    rewrite List.Forall_forall in Habove.
    apply NoDup_snoc; [exact Hdistinct|].
    intros Hin. apply Habove in Hin. lia.
Qed.

(** X4. The outbound effects of a tool call are at most one: running
    [df -h] for [system_info] with command disk_usage, one
    [requests.get] with timeout 10 on the given URL for [web_request]
    with method GET (or none given); every other call performs none. *)
Theorem call_events env name arguments w :
  w_log (snd (Advanced.handle_call_tool rt env name arguments w))
  = w_log w ++ Spec.events_of name arguments
  /\ (length (Spec.events_of name arguments) <= 1)%nat
  /\ (forall url timeout, In (HttpGet url timeout) (Spec.events_of name arguments) ->
        name = u "web_request"
        /\ default (u "GET") (arguments !! "method"%string) = u "GET"
        /\ url = arguments !! "url"%string /\ timeout = 10).
Proof.
  split; [apply call_log|].
  unfold Spec.events_of.
  destruct (name == u "system_info") eqn:Hsys.
  { destruct (arguments !! "command"%string == Some (u "disk_usage")); cbn;
      (split; [lia|]); intros url timeout Hin; cbn in Hin;
      intuition discriminate. }
  destruct (name == u "web_request") eqn:Hweb; [|cbn; split; [lia|]; intros ? ? []].
  destruct (default (u "GET") (arguments !! "method"%string) == u "GET") eqn:Hget; cbn.
  - split; [lia|]. intros url timeout [[= <- <-]|[]].
    apply eqb_eq in Hweb, Hget. auto.
  - split; [lia|]. intros ? ? [].
Qed.


End Effects.


Section Tools.
Context {FS : Type} `{FileSystem FS} (rt : Runtime).
Implicit Types (env : Env) (name f : str) (arguments : gmap string str) (w : World FS).


(** X7. [file_operations] with action read, write or delete and no
    filename does not touch the workspace: the [TypeError] of joining
    [None] to the directory is returned in an エラーが発生しました text. *)
Theorem missing_filename_reported env arguments w :
  arguments !! "filename"%string = None ->
  In (arguments !! "action"%string)
     [Some (u "read"); Some (u "write"); Some (u "delete")] ->
  Advanced.handle_call_tool rt env (u "file_operations") arguments w
  = (Return [TextContent
       (u "エラーが発生しました: "
        ++ u "unsupported operand type(s) for /: 'PosixPath' and 'NoneType'")], w).
Proof.
  intros Hfile [Ha | [Ha | [Ha | []]]];
    unfold_tools; rewrite <- Ha, Hfile; literal_tests; reflexivity.
Qed.

(** X8. Reading or deleting a file that does not exist answers
    見つかりません with the file name and changes nothing. *)
Theorem missing_file_reported env arguments f w :
  arguments !! "filename"%string = Some f ->
  fs_exists (w_fs w) f = false ->
  In (arguments !! "action"%string) [Some (u "read"); Some (u "delete")] ->
  Advanced.handle_call_tool rt env (u "file_operations") arguments w
  = (Return [TextContent (u "ファイル '" ++ f ++ u "' が見つかりません。")], w).
Proof.
  intros Hfile Hexists [Ha | [Ha | []]];
    unfold_tools; rewrite <- Ha, Hfile; literal_tests; run; rewrite Hexists;
    reflexivity.
Qed.



(** X11. A library call that fails with an exception derived from
    [Exception] inside a tool is answered in an エラーが発生しました text with
    the exception's message: reading a file that cannot be read, a write
    or an unlink that fails (the workspace is then as the failed call
    left it), and [df] that cannot be run (the attempt is still an
    outbound effect). *)
Theorem library_failures_reported env arguments f w (e : exc) :
  is_Exception (exc_type e) = true ->
  (arguments !! "action"%string = Some (u "read") ->
   arguments !! "filename"%string = Some f ->
   fs_exists (w_fs w) f = true ->
   fs_read_text (w_fs w) f = Raise e ->
   Advanced.handle_call_tool rt env (u "file_operations") arguments w
   = (Return [TextContent (u "エラーが発生しました: " ++ exc_str e)], w))
  /\ (forall after,
        arguments !! "action"%string = Some (u "write") ->
        arguments !! "filename"%string = Some f ->
        fs_write_text (w_fs w) f (default (u "") (arguments !! "content"%string))
        = (Raise e, after) ->
        Advanced.handle_call_tool rt env (u "file_operations") arguments w
        = (Return [TextContent (u "エラーが発生しました: " ++ exc_str e)],
           {| w_fs := after (env_now env); w_db := w_db w; w_log := w_log w |}))
  /\ (forall fs',
        arguments !! "action"%string = Some (u "delete") ->
        arguments !! "filename"%string = Some f ->
        fs_exists (w_fs w) f = true ->
        fs_unlink (w_fs w) f = (Raise e, fs') ->
        Advanced.handle_call_tool rt env (u "file_operations") arguments w
        = (Return [TextContent (u "エラーが発生しました: " ++ exc_str e)],
           {| w_fs := fs'; w_db := w_db w; w_log := w_log w |}))
  /\ (arguments !! "command"%string = Some (u "disk_usage") ->
      env_df env = Raise e ->
      Advanced.handle_call_tool rt env (u "system_info") arguments w
      = (Return [TextContent (u "エラーが発生しました: " ++ exc_str e)],
         {| w_fs := w_fs w; w_db := w_db w;
            w_log := w_log w ++ [RunProcess [u "df"; u "-h"]] |})).
Proof.
  intros He. split; [|split; [|split]].
  - intros Ha Hfile Hexists Hread. unfold_tools. rewrite Ha, Hfile. literal_tests.
    run. rewrite Hexists, Hread. cbn. rewrite He. reflexivity.
  - intros after Ha Hfile Hwrite. unfold_tools. rewrite Ha, Hfile. literal_tests.
    run. rewrite Hwrite. cbn. rewrite He. reflexivity.
  - intros fs' Ha Hfile Hexists Hunlink. unfold_tools. rewrite Ha, Hfile.
    literal_tests. run. rewrite Hexists. cbn. rewrite Hunlink. cbn. rewrite He.
    reflexivity.
  - intros Hc Hdf. unfold_tools. rewrite Hc. literal_tests. run. rewrite Hdf. cbn.
    rewrite He. reflexivity.
Qed.

(** X12. [web_request] compares the method with GET exactly: with any
    other method given (POST, or get in lower case) no request goes out,
    nothing changes, and the fixed 実装中 text is returned. *)
Theorem other_methods_send_nothing env arguments w :
  default (u "GET") (arguments !! "method"%string) <> u "GET" ->
  Advanced.handle_call_tool rt env (u "web_request") arguments w
  = (Return [TextContent (u "POSTリクエストは実装中です。")], w).
Proof.
  intros Hmethod. apply eqb_false in Hmethod.
  unfold_tools. literal_tests. rewrite Hmethod. reflexivity.
Qed.

End Tools.

(** ** The order of the listings *)

Section Ordering.





Context {A : Type} (key : A -> option str).






End Ordering.

(** ** Notes, tasks and the database file *)

Section Database.
Context {FS : Type} `{FileSystem FS} (rt : Runtime).
Implicit Types (env : Env) (arguments : gmap string str) (w : World FS).






Lemma note_create_run env arguments w :
  arguments !! "action"%string = Some (u "create") ->
  let title := default (u "無題") (arguments !! "title"%string) in
  let content := default (u "") (arguments !! "content"%string) in
  let now := current_timestamp rt (env_now env) in
  let id := Advanced.next_rowid (map n_id (notes (w_db w))) (notes_seq (w_db w)) in
  Advanced.handle_call_tool rt env (u "note_manager") arguments w
  = (Return [TextContent (u "ノート '" ++ title ++ u "' を作成しました（ID: "
                          ++ str_of_Z id ++ u "）")],
     {| w_fs := w_fs w;
        w_db := {| notes := notes (w_db w)
                            ++ [ {| n_id := id; n_title := title; n_content := content;
                                    n_created_at := Some now; n_updated_at := Some now |} ];
                   notes_seq := id;
                   tasks := tasks (w_db w);
                   tasks_seq := tasks_seq (w_db w) |};
        w_log := w_log w |}).
Proof.
  intros Haction title content now id.
  unfold_tools. rewrite Haction. literal_tests. reflexivity.
Qed.



(** X17. [init_database] creates the tables that are missing and keeps
    the ones that exist with their rows: afterwards both tables exist,
    running it again changes nothing, and a file that has both tables is
    left as it is. *)
Theorem init_database_keeps_existing_tables (f : Advanced.db_file) :
  (exists d, Advanced.tables (Advanced.init_database f) = Some d)
  /\ Advanced.init_database (Advanced.init_database f) = Advanced.init_database f
  /\ (forall d, Advanced.tables f = Some d ->
                Advanced.init_database f = f
                /\ Advanced.tables (Advanced.init_database f) = Some d)
  /\ (forall rows, Advanced.f_notes f = Some rows ->
                   Advanced.f_notes (Advanced.init_database f) = Some rows)
  /\ (forall rows, Advanced.f_tasks f = Some rows ->
                   Advanced.f_tasks (Advanced.init_database f) = Some rows).
Proof.
  split; [|split; [|split; [|split]]].
  - destruct f as [[[n ns]|] [[t ts]|]]; cbn; eauto.
  - destruct f as [[[n ns]|] [[t ts]|]]; reflexivity.
  - intros d. destruct f as [[[n ns]|] [[t ts]|]]; cbn; intros [= <-]; auto.
  - intros rows. destruct f as [[rows'|] ft]; cbn; intros [= <-]. reflexivity.
  - intros rows. destruct f as [fn [rows'|]]; cbn; intros [= <-]. reflexivity.
Qed.

(** X18. On a database that [init_database] has just created, the first
    note gets id 1. *)
Theorem first_note_has_id_1 env arguments w d :
  Advanced.tables (Advanced.init_database Advanced.new_file) = Some d ->
  w_db w = d ->
  arguments !! "action"%string = Some (u "create") ->
  fst (Advanced.handle_call_tool rt env (u "note_manager") arguments w)
  = Return [TextContent (u "ノート '" ++ default (u "無題") (arguments !! "title"%string)
                         ++ u "' を作成しました（ID: " ++ u "1" ++ u "）")].
Proof.
  intros [= <-] Hdb Haction.
  rewrite (note_create_run env arguments w Haction). cbn [fst]. rewrite Hdb.
  reflexivity.
Qed.

End Database.

(** ** The simple server and the catalogues *)

Section Catalogues.
Context {FS : Type} `{FileSystem FS} (rt : Runtime).
Implicit Types (env : Env) (name uri : str) (arguments : gmap string str) (w : World FS).

Lemma simple_call_raises env name arguments w (e : exc) :
  fst (Simple.handle_call_tool env name arguments w) = Raise e ->
  (~ In name Spec.simple_dispatch /\ e = Exc ValueError (u "Unknown tool: " ++ name))
  \/ (name = u "calculator" /\ is_Exception (exc_type e) = false).
Proof.
  unfold Simple.handle_call_tool, Spec.simple_dispatch.
  on_tool name "calculator"%string.
  { run. cases; intros He; try discriminate He. injection He as <-. right. auto. }
  on_tool name "text_analyzer"%string; [intros [=]|].
  on_tool name "reverse_text"%string; [intros [=]|].
  apply eqb_neq in Hname, Hname0, Hname1.
  intros [= <-]. left. split; [|reflexivity].
  cbn. intros [<- | [<- | [<- | []]]]; congruence.
Qed.


(** X20. The simple server implements exactly the tools it advertises:
    a name is among those of [handle_list_tools] if and only if
    [handle_call_tool] does not raise the unknown-tool [ValueError] for
    it. *)
Theorem simple_tools_are_the_advertised_ones env name arguments w :
  In name (map Simple.tool_name Simple.handle_list_tools)
  <-> fst (Simple.handle_call_tool env name arguments w)
      <> Raise (Exc ValueError (u "Unknown tool: " ++ name)).
Proof.
  change (map Simple.tool_name Simple.handle_list_tools) with Spec.simple_dispatch.
  split.
  - intros Hin Hunknown.
    destruct (simple_call_raises env name arguments w _ Hunknown)
      as [(Hout & _) | (_ & He)].
    + exact (Hout Hin).
    + discriminate He.
  - intros Hknown.
    destruct (List.in_dec (list_eq_dec (A := N)) name Spec.simple_dispatch)
      as [Hin | Hout]; [exact Hin|].
    exfalso. apply Hknown. rewrite simple_unknown_tool by exact Hout. reflexivity.
Qed.


(** X22. A required argument that is missing is read as the empty
    text: for each tool of the simple server and the property its schema
    requires, a call without that key has the outcome of the call with
    the key set to the empty text. *)
Theorem missing_argument_is_empty_text env (t : Simple.Tool) (key : string) arguments w :
  In t Simple.handle_list_tools ->
  In key (Simple.tool_required t) ->
  arguments !! key = None ->
  Simple.handle_call_tool env (Simple.tool_name t) arguments w
  = Simple.handle_call_tool env (Simple.tool_name t) (<[key := u ""]> arguments) w.
Proof.
  intros [<- | [<- | [<- | []]]] [<- | []] Hmissing; cbn [Simple.tool_name];
    unfold Simple.handle_call_tool; literal_tests;
    rewrite lookup_insert_eq, Hmissing; reflexivity.
Qed.

End Catalogues.

(** ** The counts of the text analyzer *)

Section Counts.

Lemma filter_length_mono {A} (f g : A -> bool) (l : list A) :
  (forall x, f x = true -> g x = true) ->
  (length (List.filter f l) <= length (List.filter g l))%nat.
Proof.
  intros Hfg. induction l as [|x l IH]; cbn; [lia|].
  destruct (f x) eqn:Hf.
  - rewrite (Hfg x Hf). cbn. lia.
  - destruct (g x); cbn; lia.
Qed.

Lemma runs_after_le (prev_ws : bool) (t : str) :
  (Spec.runs_after prev_ws t <= length (List.filter (fun c => negb (isspace c)) t))%nat.
Proof.
  revert prev_ws. induction t as [|c r IH]; intros prev_ws; cbn; [lia|].
  destruct (isspace c); cbn.
  - apply IH.
  - specialize (IH false). destruct prev_ws; lia.
Qed.

Lemma blank_is_space (c : char) : negb (isspace c) = true -> negb (Spec.is_blank c) = true.
Proof.
  unfold Spec.is_blank, isspace, SPACE, LF, TAB.
  destruct (N.eqb_spec c 32), (N.eqb_spec c 10), (N.eqb_spec c 9); subst; cbn; auto.
Qed.

(** X23. The counts [text_analyzer] reports are ordered: the words are
    at most the characters that are not space, newline or tab, those are
    at most the characters, and the lines are at least one and at most
    the characters plus one. *)
Theorem text_analyzer_counts_are_ordered (t : str) :
  let words := length (split_ws t) in
  let lines := length (split_on LF t) in
  let non_blank :=
    length (replace1 TAB (u "") (replace1 LF (u "") (replace1 SPACE (u "") t))) in
  (words <= non_blank)%nat /\ (non_blank <= length t)%nat
  /\ (1 <= lines)%nat /\ (lines <= length t + 1)%nat.
Proof.
  intros words lines non_blank. subst words lines non_blank.
  rewrite split_ws_length, split_on_length, remove_blanks.
  unfold Spec.maximal_runs, Spec.without_blanks, Spec.occurrences.
  pose proof (runs_positions t []) as Hruns. cbn in Hruns. rewrite Hruns.
  pose proof (runs_after_le true t) as Hwords.
  pose proof (filter_length_mono (fun c => negb (isspace c))
                (fun c => negb (Spec.is_blank c)) t blank_is_space) as Hblank.
  pose proof (List.filter_length_le (fun c => negb (Spec.is_blank c)) t) as Hall.
  pose proof (List.filter_length_le (fun x => (x =? LF)%N) t) as Hlines.
  split; [exact (Nat.le_trans _ _ _ Hwords Hblank)|].
  split; [exact Hall|]. unfold char in *. split; lia.
Qed.

End Counts.

(** ** Any number of calls *)

Section Sessions.
Context {FS : Type} `{FileSystem FS} (rt : Runtime).


End Sessions.

(* ===================================================================== *)
(** * The further properties on the in-memory workspace *)
(* ===================================================================== *)


Section FurtherRuns.
Import Plain.

Lemma call_returns_one_text_witness :
  fst (Advanced.handle_call_tool runtime env_interrupted (u "system_info")
         {[ "command"%string := u "disk_usage" ]} world)
  = Raise (Exc KeyboardInterrupt (u ""))
  /\ is_Exception (exc_type (Exc KeyboardInterrupt (u ""))) = false
  /\ fst (Advanced.handle_call_tool runtime (env_at 0) (u "file_operations")
            {[ "action"%string := u "read"; "filename"%string := u "archive" ]} world)
     = Return [TextContent (u "エラーが発生しました: [Errno 21] Is a directory")]
  /\ exists text,
       [TextContent (u "エラーが発生しました: [Errno 21] Is a directory")]
       = [TextContent text].
Proof.
  assert (Hraise : fst (Advanced.handle_call_tool runtime env_interrupted (u "system_info")
                          {[ "command"%string := u "disk_usage" ]} world)
                   = Raise (Exc KeyboardInterrupt (u "")))
    by (vm_compute; reflexivity).
  assert (Hreturn : fst (Advanced.handle_call_tool runtime (env_at 0) (u "file_operations")
                           {[ "action"%string := u "read";
                              "filename"%string := u "archive" ]} world)
                    = Return [TextContent
                                (u "エラーが発生しました: [Errno 21] Is a directory")])
    by (vm_compute; reflexivity).
  split; [exact Hraise|]. split.
  - exact (proj1 (call_returns_one_text runtime env_interrupted _ _ world) _ Hraise).
  - split; [exact Hreturn|].
    exact (proj2 (call_returns_one_text runtime (env_at 0) _ _ world) _ Hreturn).
Defined.


Lemma note_ids_stay_distinct_witness :
  List.NoDup (map n_id (notes (w_db world)))
  /\ List.NoDup
       (map n_id
          (notes (w_db (snd (Advanced.handle_call_tool runtime (env_at 0)
                               (u "note_manager") {[ "action"%string := u "create" ]}
                               world))))).
Proof.
  assert (Hdistinct : List.NoDup (map n_id (notes (w_db world)))).
  { vm_compute. constructor; [intros []|constructor]. }
  split; [exact Hdistinct|].
  exact (note_ids_stay_distinct runtime (env_at 0) (u "note_manager")
           {[ "action"%string := u "create" ]} world Hdistinct).
Defined.

Lemma call_events_witness :
  In (HttpGet (Some (u "http://localhost/ok")) 10)
     (Spec.events_of (u "web_request") {[ "url"%string := u "http://localhost/ok" ]})
  /\ default (u "GET")
       (({[ "url"%string := u "http://localhost/ok" ]} : gmap string str)
          !! "method"%string) = u "GET"
  /\ w_log (snd (Advanced.handle_call_tool runtime (env_at 0) (u "web_request")
                   {[ "url"%string := u "http://localhost/ok" ]} world))
     = w_log world
       ++ Spec.events_of (u "web_request") {[ "url"%string := u "http://localhost/ok" ]}.
Proof.
  assert (Hin : In (HttpGet (Some (u "http://localhost/ok")) 10)
                   (Spec.events_of (u "web_request")
                      {[ "url"%string := u "http://localhost/ok" ]}))
    by (vm_compute; auto).
  destruct (call_events runtime (env_at 0) (u "web_request")
              {[ "url"%string := u "http://localhost/ok" ]} world)
    as (Hlog & _ & Honly).
  split; [exact Hin|]. split; [exact (proj1 (proj2 (Honly _ _ Hin)))|]. exact Hlog.
Defined.



Lemma missing_filename_reported_witness :
  ({[ "action"%string := u "delete" ]} : gmap string str) !! "filename"%string = None
  /\ In (({[ "action"%string := u "delete" ]} : gmap string str) !! "action"%string)
        [Some (u "read"); Some (u "write"); Some (u "delete")]
  /\ Advanced.handle_call_tool runtime (env_at 0) (u "file_operations")
       {[ "action"%string := u "delete" ]} world
     = (Return [TextContent
          (u "エラーが発生しました: "
           ++ u "unsupported operand type(s) for /: 'PosixPath' and 'NoneType'")], world).
Proof.
  assert (Hfile : ({[ "action"%string := u "delete" ]} : gmap string str)
                    !! "filename"%string = None) by reflexivity.
  assert (Haction : In (({[ "action"%string := u "delete" ]} : gmap string str)
                          !! "action"%string)
                       [Some (u "read"); Some (u "write"); Some (u "delete")])
    by (vm_compute; auto).
  split; [exact Hfile|]. split; [exact Haction|].
  exact (missing_filename_reported runtime (env_at 0) _ world Hfile Haction).
Defined.

Lemma missing_file_reported_witness :
  ({[ "action"%string := u "read"; "filename"%string := u "nothing.txt" ]}
     : gmap string str) !! "filename"%string = Some (u "nothing.txt")
  /\ fs_exists (w_fs world) (u "nothing.txt") = false
  /\ Advanced.handle_call_tool runtime (env_at 0) (u "file_operations")
       {[ "action"%string := u "read"; "filename"%string := u "nothing.txt" ]} world
     = (Return [TextContent (u "ファイル '" ++ u "nothing.txt" ++ u "' が見つかりません。")],
        world).
Proof.
  assert (Hfile : ({[ "action"%string := u "read"; "filename"%string := u "nothing.txt" ]}
                     : gmap string str) !! "filename"%string = Some (u "nothing.txt"))
    by reflexivity.
  assert (Hexists : fs_exists (w_fs world) (u "nothing.txt") = false)
    by (vm_compute; reflexivity).
  assert (Haction : In (({[ "action"%string := u "read";
                             "filename"%string := u "nothing.txt" ]}
                           : gmap string str) !! "action"%string)
                       [Some (u "read"); Some (u "delete")])
    by (vm_compute; auto).
  split; [exact Hfile|]. split; [exact Hexists|].
  exact (missing_file_reported runtime (env_at 0) _ _ world Hfile Hexists Haction).
Defined.



Lemma library_failures_reported_witness :
  let reading : gmap string str :=
    {[ "action"%string := u "read"; "filename"%string := u "archive" ]} in
  let writing : gmap string str :=
    {[ "action"%string := u "write"; "filename"%string := u "archive" ]} in
  let deleting : gmap string str :=
    {[ "action"%string := u "delete"; "filename"%string := u "archive" ]} in
  let usage : gmap string str := {[ "command"%string := u "disk_usage" ]} in
  let no_df := Exc OSError (u "[Errno 2] No such file or directory: 'df'") in
  is_Exception (exc_type MemFS.is_a_directory) = true
  /\ fs_exists (w_fs world) (u "archive") = true
  /\ fs_read_text (w_fs world) (u "archive") = Raise MemFS.is_a_directory
  /\ Advanced.handle_call_tool runtime (env_at 0) (u "file_operations") reading world
     = (Return [TextContent (u "エラーが発生しました: " ++ exc_str MemFS.is_a_directory)],
        world)
  /\ Advanced.handle_call_tool runtime (env_at 0) (u "file_operations") writing world
     = (Return [TextContent (u "エラーが発生しました: " ++ exc_str MemFS.is_a_directory)],
        {| w_fs := workspace; w_db := w_db world; w_log := w_log world |})
  /\ Advanced.handle_call_tool runtime (env_at 0) (u "file_operations") deleting world
     = (Return [TextContent (u "エラーが発生しました: " ++ exc_str MemFS.is_a_directory)],
        {| w_fs := workspace; w_db := w_db world; w_log := w_log world |})
  /\ env_df env_without_df = Raise no_df
  /\ Advanced.handle_call_tool runtime env_without_df (u "system_info") usage world
     = (Return [TextContent (u "エラーが発生しました: " ++ exc_str no_df)],
        {| w_fs := w_fs world; w_db := w_db world;
           w_log := w_log world ++ [RunProcess [u "df"; u "-h"]] |}).
Proof.
  intros reading writing deleting usage no_df.
  assert (He : is_Exception (exc_type MemFS.is_a_directory) = true) by reflexivity.
  assert (He' : is_Exception (exc_type no_df) = true) by reflexivity.
  assert (Hexists : fs_exists (w_fs world) (u "archive") = true)
    by (vm_compute; reflexivity).
  assert (Hread : fs_read_text (w_fs world) (u "archive") = Raise MemFS.is_a_directory)
    by (vm_compute; reflexivity).
  assert (Hwrite : fs_write_text (w_fs world) (u "archive")
                     (default (u "") (writing !! "content"%string))
                   = (Raise MemFS.is_a_directory, fun _ => workspace))
    by (vm_compute; reflexivity).
  assert (Hunlink : fs_unlink (w_fs world) (u "archive")
                    = (Raise MemFS.is_a_directory, workspace))
    by (vm_compute; reflexivity).
  assert (Hdf : env_df env_without_df = Raise no_df) by reflexivity.
  assert (Har : reading !! "action"%string = Some (u "read"))
    by (vm_compute; reflexivity).
  assert (Haw : writing !! "action"%string = Some (u "write"))
    by (vm_compute; reflexivity).
  assert (Had : deleting !! "action"%string = Some (u "delete"))
    by (vm_compute; reflexivity).
  assert (Hfr : reading !! "filename"%string = Some (u "archive"))
    by (vm_compute; reflexivity).
  assert (Hfw : writing !! "filename"%string = Some (u "archive"))
    by (vm_compute; reflexivity).
  assert (Hfd : deleting !! "filename"%string = Some (u "archive"))
    by (vm_compute; reflexivity).
  assert (Hcu : usage !! "command"%string = Some (u "disk_usage"))
    by (vm_compute; reflexivity).
  split; [exact He|]. split; [exact Hexists|]. split; [exact Hread|]. split.
  { exact (proj1 (library_failures_reported runtime (env_at 0) reading (u "archive")
                    world MemFS.is_a_directory He)
                 Har Hfr Hexists Hread). }
  split.
  { exact (proj1 (proj2 (library_failures_reported runtime (env_at 0) writing
                           (u "archive") world MemFS.is_a_directory He))
                 (fun _ => workspace) Haw Hfw Hwrite). }
  split.
  { exact (proj1 (proj2 (proj2 (library_failures_reported runtime (env_at 0) deleting
                                  (u "archive") world MemFS.is_a_directory He)))
                 workspace Had Hfd Hexists Hunlink). }
  split; [exact Hdf|].
  exact (proj2 (proj2 (proj2 (library_failures_reported runtime env_without_df usage
                                (u "") world no_df He')))
               Hcu Hdf).
Defined.

Lemma other_methods_send_nothing_witness :
  default (u "GET")
    (({[ "url"%string := u "http://localhost/ok"; "method"%string := u "get" ]}
        : gmap string str) !! "method"%string) <> u "GET"
  /\ Advanced.handle_call_tool runtime (env_at 0) (u "web_request")
       {[ "url"%string := u "http://localhost/ok"; "method"%string := u "get" ]} world
     = (Return [TextContent (u "POSTリクエストは実装中です。")], world).
Proof.
  assert (Hmethod : default (u "GET")
                      (({[ "url"%string := u "http://localhost/ok";
                           "method"%string := u "get" ]} : gmap string str)
                         !! "method"%string) <> u "GET")
    by (vm_compute; discriminate).
  split; [exact Hmethod|].
  exact (other_methods_send_nothing runtime (env_at 0) _ world Hmethod).
Defined.




Lemma init_database_keeps_existing_tables_witness :
  let f := {| Advanced.f_notes := Some (notes db0, 1); Advanced.f_tasks := Some ([], 0) |} in
  Advanced.tables f = Some db0
  /\ Advanced.init_database f = f
  /\ Advanced.tables (Advanced.init_database f) = Some db0
  /\ Advanced.f_notes f = Some (notes db0, 1)
  /\ Advanced.f_notes (Advanced.init_database f) = Some (notes db0, 1).
Proof.
  intros f.
  assert (Htables : Advanced.tables f = Some db0) by reflexivity.
  assert (Hnotes : Advanced.f_notes f = Some (notes db0, 1)) by reflexivity.
  destruct (init_database_keeps_existing_tables f) as (_ & _ & Hkeep & Hrows & _).
  destruct (Hkeep db0 Htables) as (Hsame & Hafter).
  split; [exact Htables|]. split; [exact Hsame|]. split; [exact Hafter|].
  split; [exact Hnotes|]. exact (Hrows _ Hnotes).
Defined.

Lemma first_note_has_id_1_witness :
  let fresh := {| notes := []; notes_seq := 0; tasks := []; tasks_seq := 0 |} in
  let w := {| w_fs := workspace; w_db := fresh; w_log := [] |} in
  let arguments : gmap string str := {[ "action"%string := u "create" ]} in
  Advanced.tables (Advanced.init_database Advanced.new_file) = Some fresh
  /\ arguments !! "action"%string = Some (u "create")
  /\ fst (Advanced.handle_call_tool runtime (env_at 0) (u "note_manager") arguments w)
     = Return [TextContent (u "ノート '" ++ default (u "無題") (arguments !! "title"%string)
                            ++ u "' を作成しました（ID: " ++ u "1" ++ u "）")].
Proof.
  intros fresh w arguments.
  assert (Hfresh : Advanced.tables (Advanced.init_database Advanced.new_file)
                   = Some fresh) by reflexivity.
  assert (Haction : arguments !! "action"%string = Some (u "create")) by reflexivity.
  split; [exact Hfresh|]. split; [exact Haction|].
  exact (first_note_has_id_1 runtime (env_at 0) arguments w fresh Hfresh eq_refl Haction).
Defined.


Lemma simple_tools_are_the_advertised_ones_witness :
  In (u "reverse_text") (map Simple.tool_name Simple.handle_list_tools)
  /\ fst (Simple.handle_call_tool (env_at 0) (u "reverse_text") ∅ world)
     <> Raise (Exc ValueError (u "Unknown tool: " ++ u "reverse_text"))
  /\ fst (Simple.handle_call_tool (env_at 0) (u "calculator") ∅ world)
     <> Raise (Exc ValueError (u "Unknown tool: " ++ u "calculator"))
  /\ In (u "calculator") (map Simple.tool_name Simple.handle_list_tools).
Proof.
  assert (Hin : In (u "reverse_text") (map Simple.tool_name Simple.handle_list_tools))
    by (vm_compute; auto).
  assert (Hknown : fst (Simple.handle_call_tool (env_at 0) (u "calculator") ∅ world)
                   <> Raise (Exc ValueError (u "Unknown tool: " ++ u "calculator")))
    by (vm_compute; discriminate).
  split; [exact Hin|]. split.
  - exact (proj1 (simple_tools_are_the_advertised_ones (env_at 0) (u "reverse_text") ∅
                    world) Hin).
  - split; [exact Hknown|].
    exact (proj2 (simple_tools_are_the_advertised_ones (env_at 0) (u "calculator") ∅
                    world) Hknown).
Defined.


Lemma missing_argument_is_empty_text_witness :
  let reverse := {| Simple.tool_name := u "reverse_text";
                    Simple.tool_description := u "Reverse the order of characters in text";
                    Simple.tool_properties := [ ("text"%string, u "Text to reverse") ];
                    Simple.tool_required := ["text"%string] |} in
  In reverse Simple.handle_list_tools
  /\ In "text"%string (Simple.tool_required reverse)
  /\ (∅ : gmap string str) !! "text"%string = None
  /\ Simple.handle_call_tool (env_at 0) (Simple.tool_name reverse) ∅ world
     = Simple.handle_call_tool (env_at 0) (Simple.tool_name reverse)
         (<["text"%string := u ""]> ∅) world.
Proof.
  intros reverse.
  assert (Htool : In reverse Simple.handle_list_tools) by (cbn; auto).
  assert (Hkey : In "text"%string (Simple.tool_required reverse)) by (cbn; auto).
  assert (Hmissing : (∅ : gmap string str) !! "text"%string = None) by reflexivity.
  split; [exact Htool|]. split; [exact Hkey|]. split; [exact Hmissing|].
  exact (missing_argument_is_empty_text (env_at 0) reverse "text"%string ∅ world
           Htool Hkey Hmissing).
Defined.


End FurtherRuns.
